(** * hotpdf: the [HotPdf] document class of [hotpdf/hotpdf.py]

    A shallow embedding of the query surface of [HotPdf] (range and
    coordinate checks, [load], [find_text], [extract_text],
    [extract_page_text], [extract_spans], [extract_spans_text]) together
    with the properties the specification states about it.

    Python integers are [Z]; strings are [string]; a raised exception is
    the [Raise] branch of [result]; a [dict] is an association list in
    insertion order with unique keys. *)

From Stdlib Require Import ZArith List String Ascii Bool Lia Permutation Sorted.
Import ListNotations.
Open Scope string_scope.
Open Scope list_scope.
Open Scope Z_scope.

(** ** Exceptions *)

Inductive exn : Type :=
| ValueError (msg : string)
| FileNotFoundError (msg : string)
| KeyError (key : string)
| IndexError
| EmptyInputError
| BackendError (tag : string).

Inductive result (A : Type) : Type :=
| Ok (a : A)
| Raise (e : exn).

Arguments Ok {A} a.
Arguments Raise {A} e.

Definition bind {A B} (m : result A) (k : A -> result B) : result B :=
  match m with
  | Ok a => k a
  | Raise e => Raise e
  end.

Notation "x <- m ;; k" := (bind m (fun x => k))
  (at level 61, m at next level, right associativity).
Notation "m ;;; k" := (bind m (fun _ => k))
  (at level 61, right associativity).

Definition fmap {A B} (f : A -> B) (m : result A) : result B :=
  x <- m ;; Ok (f x).

(** A [for] loop whose body may raise and which updates one local. *)
Fixpoint foldM {A S} (body : S -> A -> result S) (l : list A) (s : S)
  : result S :=
  match l with
  | [] => Ok s
  | a :: l' => s' <- body s a ;; foldM body l' s'
  end.

(** A [for] loop run for its checks only. *)
Definition for_each {A} (body : A -> result unit) (l : list A) : result unit :=
  foldM (fun _ a => body a) l tt.

(** ** Python containers *)

Definition len {A} (l : list A) : Z := Z.of_nat (List.length l).

(** [l[i]]: a negative index counts from the end, anything outside raises. *)
Definition list_get {A} (l : list A) (i : Z) : result A :=
  let j := if i <? 0 then i + len l else i in
  if (j <? 0) || (len l <=? j) then Raise IndexError
  else match nth_error l (Z.to_nat j) with
       | Some a => Ok a
       | None => Raise IndexError
       end.

(** [range(n)] *)
Definition range (n : Z) : list Z := map Z.of_nat (seq 0 (Z.to_nat n)).

Section Dict.
Context {K V : Type} (eqb : K -> K -> bool).

(** [d[k] = v]: overwrite in place, or append a new key. *)
Fixpoint dict_set (d : list (K * V)) (k : K) (v : V) : list (K * V) :=
  match d with
  | [] => [(k, v)]
  | (k', v') :: d' =>
      if eqb k k' then (k, v) :: d' else (k', v') :: dict_set d' k v
  end.

Fixpoint dict_find (d : list (K * V)) (k : K) : option V :=
  match d with
  | [] => None
  | (k', v') :: d' => if eqb k k' then Some v' else dict_find d' k
  end.
End Dict.

Definition keys {K V} (d : list (K * V)) : list K := map fst d.

(** [q in text] on strings. *)
Fixpoint str_in (q text : string) : bool :=
  if String.prefix q text then true
  else match text with
       | EmptyString => false
       | String _ rest => str_in q rest
       end.

(** Truthiness of an [Optional[str]]: [None] and the empty string are
    false. *)
Definition truthy_id (s : option string) : bool :=
  match s with
  | Some (String _ _) => true
  | _ => false
  end.

Definition option_string_eqb (a b : option string) : bool :=
  match a, b with
  | Some s, Some t => String.eqb s t
  | None, None => true
  | _, _ => false
  end.

(** ** Data classes ([hotpdf/data/classes.py], imported by the module) *)

Module HotCharacter.
(** Modelled from the spec: the [HotCharacter] class is imported, not
    defined, by [hotpdf.py]; section 3 gives a glyph value, [x], [y] and
    a nullable owning span identifier. *)
Record t : Type := mk { value : string; x : Z; y : Z; span_id : option string }.
End HotCharacter.

Module ElementDimension.
(** Modelled from the spec: the rectangle [(x0, y0, x1, y1)] of section 3
    and the fifth positional field, which [extract_spans] fills with the
    empty string. *)
Record t : Type := mk { x0 : Z; y0 : Z; x1 : Z; y1 : Z; ref : string }.
End ElementDimension.

Module Span.
(** Modelled from the spec: an identified, ordered run of characters. *)
Record t : Type := mk { span_id : string; characters : list HotCharacter.t }.
End Span.

Definition Occurrence : Type := list HotCharacter.t.
Definition PageResult : Type := list Occurrence.
Definition SearchResult : Type := list (Z * PageResult).

(** The [pdf_file] argument: a path given as [str], a [PurePath] or an
    open stream. *)
Inductive PdfFile : Type :=
| PathStr (path : string)
| PurePathObj (path : string)
| IOObj (handle : nat).

(** [if pdf_file:] -- [None] and the empty [str] are false. *)
Definition truthy_file (f : option PdfFile) : bool :=
  match f with
  | None => false
  | Some (PathStr EmptyString) => false
  | Some _ => true
  end.

(** ** Collaborators

    Everything [hotpdf.py] imports and calls but does not define:
    [memory_map.MemoryMap] (attributes [width], [height], [span_map] and
    methods [find_text], [extract_text_from_bbox]), the methods of [Span],
    the helpers of [hotpdf.utils], [processor.process] and
    [os.path.exists].  Each call may raise. *)

Class Collaborators : Type := {
  MemoryMap : Type;
  width : MemoryMap -> Z;
  height : MemoryMap -> Z;
  span_map : MemoryMap -> list (string * Span.t);
  (** what [MemoryMap.find_text] returns and [filter_adjacent_coords]
      receives unpacked *)
  RawHits : Type;
  memory_map_find_text : MemoryMap -> string -> result RawHits;
  (** keyword order of the call sites: [x0], [x1], [y0], [y1] *)
  extract_text_from_bbox : MemoryMap -> Z -> Z -> Z -> Z -> result string;
  to_text : Span.t -> string;
  span_get_element_dimension : Span.t -> result ElementDimension.t;
  filter_adjacent_coords : RawHits -> result PageResult;
  get_element_dimension : Occurrence -> result ElementDimension.t;
  intersect : ElementDimension.t -> ElementDimension.t -> bool;
  path_exists : string -> bool;
  process : PdfFile -> string -> bool -> Z -> Z -> result (list MemoryMap)
}.

(** [sorted(chars, key=lambda ch: (ch.x, ch.y))]: a stable sort on the
    lexicographic order of the key. *)
Definition key_le (a b : HotCharacter.t) : bool :=
  (HotCharacter.x a <? HotCharacter.x b)
  || ((HotCharacter.x a =? HotCharacter.x b)
      && (HotCharacter.y a <=? HotCharacter.y b)).

Fixpoint insert_by (le : HotCharacter.t -> HotCharacter.t -> bool)
  (c : HotCharacter.t) (l : Occurrence) : Occurrence :=
  match l with
  | [] => [c]
  | d :: l' => if le c d then c :: d :: l' else d :: insert_by le c l'
  end.

Definition sorted_by (le : HotCharacter.t -> HotCharacter.t -> bool)
  (l : Occurrence) : Occurrence :=
  fold_right (insert_by le) [] l.

(** [list(set(l))] as far as membership goes. *)
Fixpoint distinct (l : list (option string)) : list (option string) :=
  match l with
  | [] => []
  | a :: l' => if existsb (option_string_eqb a) l' then distinct l'
               else a :: distinct l'
  end.

(** ** The [HotPdf] class *)

Module HotPdf.
Section Methods.
Context `{Collaborators}.

Record t : Type := mk {
  pages : list MemoryMap;
  extraction_tolerance : Z
}.

Definition check_file_exists (pdf_file : string) : result unit :=
  if negb (path_exists pdf_file)
  then Raise (FileNotFoundError ("File " ++ pdf_file ++ " not found")%string)
  else Ok tt.

Definition check_coordinates (x0 y0 x1 y1 : Z) : result unit :=
  if (x0 <? 0) || (x1 <? 0) || (y0 <? 0) || (y1 <? 0)
  then Raise (ValueError "Invalid coordinates")
  else Ok tt.

Definition check_page_number (self : t) (page : Z) : result unit :=
  if (page <? 0) || (page >=? len (pages self))
  then Raise (ValueError "Invalid page number")
  else Ok tt.

Definition check_page_range (first_page last_page : Z) : result unit :=
  if (first_page >? last_page) || (first_page <? 0) || (last_page <? 0)
  then Raise (ValueError "Invalid page range")
  else Ok tt.

Definition prechecks (pdf_file : PdfFile) (first_page last_page : Z)
  : result unit :=
  (match pdf_file with
   | PathStr path => check_file_exists path
   | _ => Ok tt
   end) ;;;
  check_page_range first_page last_page.

(** [load] replaces [self.pages]; the [try]/[except] re-raises as is. *)
Definition load (self : t) (pdf_file : PdfFile) (password : string)
  (drop_duplicate_spans : bool) (first_page last_page : Z) : result t :=
  prechecks pdf_file first_page last_page ;;;
  new_pages <- process pdf_file password drop_duplicate_spans
                 first_page last_page ;;
  Ok (mk new_pages (extraction_tolerance self)).

(** [__init__]; the defaults are [password = EmptyString],
    [drop_duplicate_spans = true], [first_page = last_page = 0],
    [extraction_tolerance = 4]. *)
Definition init (pdf_file : option PdfFile) (password : string)
  (drop_duplicate_spans : bool) (first_page last_page : Z)
  (extraction_tolerance : Z) : result t :=
  let self := mk [] extraction_tolerance in
  match pdf_file with
  | Some f =>
      if truthy_file pdf_file
      then load self f password drop_duplicate_spans first_page last_page
      else Ok self
  | None => Ok self
  end.

(** [__extract_full_text_span]; a [Span] object counts as true, so
    [_span.characters if _span else None] is [None] only when no span was
    looked up. *)
Definition extract_full_text_span (self : t) (hot_characters : Occurrence)
  (page_num : Z) : result (option Occurrence) :=
  first <- list_get hot_characters 0 ;;
  _span <- (if truthy_id (HotCharacter.span_id first)
            then
              page <- list_get (pages self) page_num ;;
              match HotCharacter.span_id first with
              | Some id =>
                  match dict_find String.eqb (span_map page) id with
                  | Some sp => Ok (Some sp)
                  | None => Raise (KeyError id)
                  end
              | None => Ok None
              end
            else Ok None) ;;
  Ok (match _span with
      | Some sp => Some (Span.characters sp)
      | None => None
      end).

(** [math.floor] and [math.ceil] are the identity on [int] arguments. *)
Definition extract_text (self : t) (x0 y0 x1 y1 : Z) (page : Z)
  : result string :=
  check_coordinates x0 y0 x1 y1 ;;;
  check_page_number self page ;;;
  page_to_search <- list_get (pages self) page ;;
  extract_text_from_bbox page_to_search
    x0 (x1 + extraction_tolerance self) y0 y1.

Definition extract_page_text (self : t) (page : Z) : result string :=
  check_page_number self page ;;;
  page_to_search <- list_get (pages self) page ;;
  extract_text_from_bbox page_to_search
    0 (width page_to_search) 0 (height page_to_search).

Definition extract_spans (self : t) (x0 y0 x1 y1 : Z) (page : Z)
  : result (list Span.t) :=
  let spans : list Span.t := [] in
  check_coordinates x0 y0 x1 y1 ;;;
  check_page_number self page ;;;
  the_page <- list_get (pages self) page ;;
  foldM (fun spans (item : string * Span.t) =>
           let span := snd item in
           dim <- span_get_element_dimension span ;;
           if intersect (ElementDimension.mk x0 y0 x1 y1 EmptyString) dim
           then Ok (spans ++ [span])
           else Ok spans)
        (span_map the_page) spans.

Definition extract_spans_text (self : t) (x0 y0 x1 y1 : Z) (page : Z)
  : result string :=
  check_coordinates x0 y0 x1 y1 ;;;
  check_page_number self page ;;;
  spans <- extract_spans self x0 y0 x1 y1 page ;;
  let extracted_text :=
    fold_left (fun acc span => acc ++ [to_text span]) spans [] in
  Ok (String.concat EmptyString extracted_text).

(** [full if (take_span and full) else hot_characters]: [None] and the
    empty list are false. *)
Definition span_or_raw (take_span : bool) (full : option Occurrence)
  (hot_characters : Occurrence) : Occurrence :=
  match full with
  | Some (c :: cs) => if take_span then c :: cs else hot_characters
  | _ => hot_characters
  end.

(** The body of the loop over one page's occurrences in [find_text];
    [acc] is [final_found_page_map[page_num]], and returning it unchanged
    is the [continue] (or the failed validation). *)
Definition occurrence_body (self : t) (query : string)
  (validate take_span sort : bool) (page_num : Z)
  (acc : PageResult) (hot_characters : Occurrence) : result PageResult :=
  element_dimension <- get_element_dimension hot_characters ;;
  text <- extract_text self
            (ElementDimension.x0 element_dimension)
            (ElementDimension.y0 element_dimension)
            (ElementDimension.x1 element_dimension)
            (ElementDimension.y1 element_dimension)
            page_num ;;
  if str_in query text || negb validate then
    let seen_span_ids : list (option string) := [] in
    full_span_dimension_hot_characters <-
      (if take_span
       then extract_full_text_span self hot_characters page_num
       else Ok None) ;;
    let chars_to_append :=
      span_or_raw take_span full_span_dimension_hot_characters
        hot_characters in
    match chars_to_append with
    | first :: _ =>
        if existsb (option_string_eqb (HotCharacter.span_id first))
             seen_span_ids
        then Ok acc
        else
          let seen_span_ids :=
            seen_span_ids
            ++ distinct (map HotCharacter.span_id chars_to_append) in
          let chars_to_append :=
            if sort then sorted_by key_le chars_to_append
            else chars_to_append in
          Ok (acc ++ [chars_to_append])
    | [] => Ok (acc ++ [chars_to_append])
    end
  else Ok acc.

Definition find_text (self : t) (query : string) (pages_arg : option (list Z))
  (validate take_span sort : bool) : result SearchResult :=
  let pages_arg := match pages_arg with None => [] | Some l => l end in
  for_each (check_page_number self) pages_arg ;;;
  query_pages <-
    foldM (fun d i => m <- list_get (pages self) i ;; Ok (dict_set Z.eqb d i m))
          (if len pages_arg =? 0 then range (len (pages self)) else pages_arg)
          [] ;;
  found_page_map <-
    foldM (fun d (item : Z * MemoryMap) =>
             let page_num := fst item in
             occurrences <-
               (hits <- memory_map_find_text (snd item) query ;;
                filter_adjacent_coords hits) ;;
             Ok (dict_set Z.eqb d page_num occurrences))
          query_pages [] ;;
  foldM (fun final (item : Z * PageResult) =>
           let page_num := fst item in
           let hot_character_page_occurences := snd item in
           found <- foldM (occurrence_body self query validate take_span
                             sort page_num)
                      hot_character_page_occurences [] ;;
           Ok (dict_set Z.eqb final page_num found))
        found_page_map [].

End Methods.
End HotPdf.

(** ** A page index after the specification

    The collaborators are not part of [hotpdf.py]; the definitions of this
    module follow the specification's sections 4.1 to 4.4 and give the
    class an instance on which concrete documents can be run. *)

Module PageIndex.

Record Page : Type := mkPage {
  page_width : Z;
  page_height : Z;
  (** all characters of the page, in rendering order *)
  page_characters : list HotCharacter.t;
  page_spans : list (string * Span.t)
}.

Definition min_of (f : HotCharacter.t -> Z) (c : HotCharacter.t)
  (l : Occurrence) : Z := fold_left (fun m d => Z.min m (f d)) l (f c).

Definition max_of (f : HotCharacter.t -> Z) (c : HotCharacter.t)
  (l : Occurrence) : Z := fold_left (fun m d => Z.max m (f d)) l (f c).

(** Modelled from the spec: [boundingBox] of section 4.1, which
    [utils.get_element_dimension] stands for -- minimum and maximum of
    [x] and [y] over the characters, an error on the empty sequence. *)
Definition bounding_box (chars : Occurrence) : result ElementDimension.t :=
  match chars with
  | [] => Raise EmptyInputError
  | c :: l =>
      Ok (ElementDimension.mk
            (min_of HotCharacter.x c l) (min_of HotCharacter.y c l)
            (max_of HotCharacter.x c l) (max_of HotCharacter.y c l)
            EmptyString)
  end.

(** Modelled from the spec: [intersects] of section 4.1, which
    [utils.intersect] stands for -- open-interval overlap. *)
Definition intersects (a b : ElementDimension.t) : bool :=
  (ElementDimension.x0 a <? ElementDimension.x1 b)
  && (ElementDimension.x0 b <? ElementDimension.x1 a)
  && (ElementDimension.y0 a <? ElementDimension.y1 b)
  && (ElementDimension.y0 b <? ElementDimension.y1 a).

Definition glyphs (chars : Occurrence) : string :=
  String.concat EmptyString (map HotCharacter.value chars).

(** Modelled from the spec: [Span.text()] of section 4.2 -- the glyphs
    of the member characters in stored order. *)
Definition span_text (s : Span.t) : string := glyphs (Span.characters s).

(** Modelled from the spec: [Span.boundingBox()] of section 4.2. *)
Definition span_bounding_box (s : Span.t) : result ElementDimension.t :=
  bounding_box (Span.characters s).

Definition in_box (x0 x1 y0 y1 : Z) (c : HotCharacter.t) : bool :=
  (x0 <=? HotCharacter.x c) && (HotCharacter.x c <=? x1)
  && (y0 <=? HotCharacter.y c) && (HotCharacter.y c <=? y1).

Definition reading_le (a b : HotCharacter.t) : bool :=
  (HotCharacter.y a <? HotCharacter.y b)
  || ((HotCharacter.y a =? HotCharacter.y b)
      && (HotCharacter.x a <=? HotCharacter.x b)).

Definition newline : string := String (ascii_of_nat 10) EmptyString.

Fixpoint join_lines (line_tolerance : Z) (prev : Z) (l : Occurrence)
  : string :=
  match l with
  | [] => EmptyString
  | c :: l' =>
      ((if Z.abs (HotCharacter.y c - prev) >? line_tolerance
        then newline else EmptyString)
       ++ HotCharacter.value c
       ++ join_lines line_tolerance (HotCharacter.y c) l')%string
  end.

(** Modelled from the spec: [extractTextFromBBox] of section 4.3 -- the
    characters inside the rectangle, edges included, by ascending [y]
    then [x], with a line break where [y] jumps by more than the line
    tolerance. *)
Definition text_from_bbox (line_tolerance : Z) (p : Page)
  (x0 x1 y0 y1 : Z) : string :=
  match sorted_by reading_le
          (filter (in_box x0 x1 y0 y1) (page_characters p)) with
  | [] => EmptyString
  | c :: l => join_lines line_tolerance (HotCharacter.y c) (c :: l)
  end.

Fixpoint windows (n : nat) (l : Occurrence) : list Occurrence :=
  match l with
  | [] => []
  | c :: l' =>
      (if (n <=? List.length l)%nat then [firstn n l] else [])
      ++ windows n l'
  end.

(** Modelled from the spec: [rawFindText] of section 4.3 -- every run of
    consecutive characters, in rendering order, whose glyphs spell the
    query. *)
Definition raw_find_text (p : Page) (query : string) : PageResult :=
  match query with
  | EmptyString => []
  | _ => filter (fun w => String.eqb (glyphs w) query)
           (windows (String.length query) (page_characters p))
  end.

Definition box_of (chars : Occurrence) : ElementDimension.t :=
  match bounding_box chars with
  | Ok d => d
  | Raise _ => ElementDimension.mk 0 0 0 0 EmptyString
  end.

Definition gap (lo1 hi1 lo2 hi2 : Z) : Z :=
  Z.max 0 (Z.max lo1 lo2 - Z.min hi1 hi2).

(** Two hits are the same occurrence iff their boxes intersect or lie
    closer than the tolerance. *)
Definition same_occurrence (tolerance : Z) (a b : Occurrence) : bool :=
  let da := box_of a in
  let db := box_of b in
  intersects da db
  || (Z.max
        (gap (ElementDimension.x0 da) (ElementDimension.x1 da)
             (ElementDimension.x0 db) (ElementDimension.x1 db))
        (gap (ElementDimension.y0 da) (ElementDimension.y1 da)
             (ElementDimension.y0 db) (ElementDimension.y1 db))
      <? tolerance).

Definition box_width (o : Occurrence) : Z :=
  ElementDimension.x1 (box_of o) - ElementDimension.x0 (box_of o).

Fixpoint merge_hit (tolerance : Z) (kept : PageResult) (h : Occurrence)
  : PageResult :=
  match kept with
  | [] => [h]
  | k :: kept' =>
      if same_occurrence tolerance k h
      then (if box_width k <? box_width h then h else k) :: kept'
      else k :: merge_hit tolerance kept' h
  end.

(** Modelled from the spec: adjacency filtering of section 4.4, which
    [utils.filter_adjacent_coords] stands for -- hits that are the same
    occurrence are merged, the widest kept. *)
Definition merge_adjacent (tolerance : Z) (hits : PageResult) : PageResult :=
  fold_left (merge_hit tolerance) hits [].

(** The instance.  No file system and no parser: every path exists and
    the loader yields no page. *)
Definition collaborators (tolerance line_tolerance : Z) : Collaborators :=
  {| MemoryMap := Page;
     width := page_width;
     height := page_height;
     span_map := page_spans;
     RawHits := PageResult;
     memory_map_find_text := fun p q => Ok (raw_find_text p q);
     extract_text_from_bbox :=
       fun p x0 x1 y0 y1 => Ok (text_from_bbox line_tolerance p x0 x1 y0 y1);
     to_text := span_text;
     span_get_element_dimension := span_bounding_box;
     filter_adjacent_coords := fun hits => Ok (merge_adjacent tolerance hits);
     get_element_dimension := bounding_box;
     intersect := intersects;
     path_exists := fun _ => true;
     process := fun _ _ _ _ _ => Ok [] |}.

End PageIndex.

(** ** Concrete documents *)

Module Examples.
Import PageIndex.

(** extraction tolerance 4 (the default of [__init__]), adjacency
    tolerance 4, line tolerance 0 *)
#[export] Instance model : Collaborators := collaborators 4 0.

Definition ch (v : string) (x y : Z) (id : string) : HotCharacter.t :=
  HotCharacter.mk v x y (Some id).

(** One line, one span, the word twice: [hi-hi]. *)
Definition line_chars : Occurrence :=
  [ch "h" 0 0 "s1"; ch "i" 10 0 "s1"; ch "-" 20 0 "s1";
   ch "h" 30 0 "s1"; ch "i" 40 0 "s1"].

Definition line_page : Page :=
  mkPage 100 100 line_chars [("s1", Span.mk "s1" line_chars)].

Definition line_pdf : HotPdf.t := HotPdf.mk [line_page] 4.

(** Two spans holding the same word; the right-hand one is drawn first. *)
Definition right_chars : Occurrence := [ch "h" 50 0 "r"; ch "i" 51 0 "r"].
Definition left_chars : Occurrence := [ch "h" 0 10 "l"; ch "i" 1 10 "l"].

Definition two_page : Page :=
  mkPage 100 100 (right_chars ++ left_chars)
    [("r", Span.mk "r" right_chars); ("l", Span.mk "l" left_chars)].

Definition two_pdf : HotPdf.t := HotPdf.mk [two_page] 4.

(** A word split over two spans: [xa] then, further right, [by]. *)
Definition head_chars : Occurrence := [ch "x" 0 0 "a"; ch "a" 1 0 "a"].
Definition tail_chars : Occurrence := [ch "b" 10 0 "b"; ch "y" 11 0 "b"].

Definition split_page : Page :=
  mkPage 100 100 (head_chars ++ tail_chars)
    [("a", Span.mk "a" head_chars); ("b", Span.mk "b" tail_chars)].

Definition split_pdf : HotPdf.t := HotPdf.mk [split_page] 4.

(** A page 10 wide with a glyph drawn at [x = 12], past its right edge. *)
Definition narrow_page : Page :=
  mkPage 10 10 [ch "a" 5 5 "n"; ch "b" 12 5 "n"]
    [("n", Span.mk "n" [ch "a" 5 5 "n"; ch "b" 12 5 "n"])].

Definition narrow_pdf : HotPdf.t := HotPdf.mk [narrow_page] 4.

(** The same page read with no extraction tolerance. *)
Definition exact_pdf : HotPdf.t := HotPdf.mk [narrow_page] 0.

(** [HotPdf()] *)
Definition empty_pdf : result HotPdf.t :=
  HotPdf.init None EmptyString true 0 0 4.

End Examples.

(** ** Vocabulary of the properties *)

(** The span identifier an occurrence resolves to: that of its first
    character, which is what [find_text] tests against [seen_span_ids]. *)
Definition occurrence_span_id (o : Occurrence) : option (option string) :=
  match o with
  | [] => None
  | c :: _ => Some (HotCharacter.span_id c)
  end.

(** [(min-x, min-y)] of an occurrence's characters, and the order on it. *)
Definition min_xy (o : Occurrence) : option (Z * Z) :=
  match o with
  | [] => None
  | c :: l => Some (PageIndex.min_of HotCharacter.x c l,
                    PageIndex.min_of HotCharacter.y c l)
  end.

Definition min_xy_le (a b : Occurrence) : bool :=
  match min_xy a, min_xy b with
  | Some (ax, ay), Some (bx, by_) => (ax <? bx) || ((ax =? bx) && (ay <=? by_))
  | _, _ => true
  end.

Fixpoint non_decreasing (occs : PageResult) : bool :=
  match occs with
  | a :: ((b :: _) as rest) => min_xy_le a b && non_decreasing rest
  | _ => true
  end.

(** The characters of a list are in ascending [(x, y)] order. *)
Definition ascending_xy (o : Occurrence) : Prop :=
  StronglySorted (fun a b => key_le a b = true) o.

(** Python's [sort] flag applied to one occurrence. *)
Definition with_sort (sort : bool) (o : Occurrence) : Occurrence :=
  if sort then sorted_by key_le o else o.

Definition span_ids_of (o : Occurrence) : list (option string) :=
  map HotCharacter.span_id o.

Definition valid_page `{Collaborators} (self : HotPdf.t) (page : Z) : Prop :=
  0 <= page < len (HotPdf.pages self).

Definition invalid_page_number : exn := ValueError "Invalid page number".
Definition invalid_coordinates : exn := ValueError "Invalid coordinates".
Definition invalid_page_range : exn := ValueError "Invalid page range".

(** Two boxes with the same four coordinates, whatever else they carry. *)
Definition same_coordinates (a b : ElementDimension.t) : Prop :=
  ElementDimension.x0 a = ElementDimension.x0 b
  /\ ElementDimension.y0 a = ElementDimension.y0 b
  /\ ElementDimension.x1 a = ElementDimension.x1 b
  /\ ElementDimension.y1 a = ElementDimension.y1 b.

(** The file check of [__prechecks] passes: only a [str] path is looked
    up. *)
Definition file_found `{Collaborators} (pdf_file : PdfFile) : Prop :=
  match pdf_file with
  | PathStr path => path_exists path = true
  | _ => True
  end.

(** A search result with the characters of every occurrence sorted. *)
Definition sort_result (res : SearchResult) : SearchResult :=
  map (fun item => (fst item, map (sorted_by key_le) (snd item))) res.

(** The distinct elements of a list, each at its first position: the keys
    of the comprehension [{i: ... for i in l}], in order. *)
Fixpoint first_occurrences (seen l : list Z) : list Z :=
  match l with
  | [] => []
  | a :: l' =>
      if existsb (Z.eqb a) seen then first_occurrences seen l'
      else a :: first_occurrences (a :: seen) l'
  end.

(** The text [find_text] reads back over the bounding box of a hit (the
    empty string stands in where one of the two calls raises). *)
Definition validation_text `{Collaborators} (self : HotPdf.t) (page_num : Z)
  (h : Occurrence) : string :=
  match (d <- get_element_dimension h ;;
         HotPdf.extract_text self
           (ElementDimension.x0 d) (ElementDimension.y0 d)
           (ElementDimension.x1 d) (ElementDimension.y1 d) page_num) with
  | Ok text => text
  | Raise _ => EmptyString
  end.

(** The test [(query in text) or not validate] of a hit. *)
Definition passes `{Collaborators} (self : HotPdf.t) (query : string)
  (validate : bool) (page_num : Z) (h : Occurrence) : bool :=
  str_in query (validation_text self page_num h) || negb validate.

(** What [find_text] appends for a hit that passed: the hit, or with
    [take_span] what the span lookup made of it, sorted on demand. *)
Definition returned_for `{Collaborators} (self : HotPdf.t)
  (take_span sort : bool) (page_num : Z) (h : Occurrence) : Occurrence :=
  with_sort sort
    (if take_span
     then match HotPdf.extract_full_text_span self h page_num with
          | Ok full => HotPdf.span_or_raw true full h
          | Raise _ => h
          end
     else h).

(** The page index of the specification behind a file system that knows
    one file, [doc.pdf], whose loader yields the one-line page. *)
Definition disk : Collaborators :=
  {| MemoryMap := PageIndex.Page;
     width := PageIndex.page_width;
     height := PageIndex.page_height;
     span_map := PageIndex.page_spans;
     RawHits := PageResult;
     memory_map_find_text := fun p q => Ok (PageIndex.raw_find_text p q);
     extract_text_from_bbox :=
       fun p x0 x1 y0 y1 => Ok (PageIndex.text_from_bbox 0 p x0 x1 y0 y1);
     to_text := PageIndex.span_text;
     span_get_element_dimension := PageIndex.span_bounding_box;
     filter_adjacent_coords :=
       fun hits => Ok (PageIndex.merge_adjacent 4 hits);
     get_element_dimension := PageIndex.bounding_box;
     intersect := PageIndex.intersects;
     path_exists := String.eqb "doc.pdf";
     process := fun f _ _ _ _ =>
       match f with
       | IOObj _ => Raise (BackendError "parser")
       | _ => Ok [Examples.line_page]
       end |}.

(** A page whose only character names a span that holds no character. *)
Definition vacant_pdf : @HotPdf.t Examples.model :=
  @HotPdf.mk Examples.model
    [PageIndex.mkPage 100 100 [Examples.ch "a" 1 0 "e"]
       [("e", Span.mk "e" [])]] 4.

(** A page whose second span holds no character. *)
Definition hollow_spans : list (string * Span.t) :=
  [("a", Span.mk "a" Examples.head_chars); ("e", Span.mk "e" [])].

Definition hollow_pdf : @HotPdf.t Examples.model :=
  @HotPdf.mk Examples.model
    [PageIndex.mkPage 100 100 Examples.head_chars hollow_spans] 4.

(** * Properties *)

Section Checks.
Context `{Collaborators}.

Lemma check_coordinates_neg x0 y0 x1 y1 :
  x0 < 0 \/ y0 < 0 \/ x1 < 0 \/ y1 < 0 ->
  HotPdf.check_coordinates x0 y0 x1 y1 = Raise invalid_coordinates.
Proof.
  intros Hneg. unfold HotPdf.check_coordinates.
  destruct (x0 <? 0) eqn:E0, (x1 <? 0) eqn:E1,
           (y0 <? 0) eqn:E2, (y1 <? 0) eqn:E3; simpl; try reflexivity.
  apply Z.ltb_ge in E0, E1, E2, E3. lia.
Qed.

Lemma check_coordinates_nonneg x0 y0 x1 y1 :
  0 <= x0 -> 0 <= y0 -> 0 <= x1 -> 0 <= y1 ->
  HotPdf.check_coordinates x0 y0 x1 y1 = Ok tt.
Proof.
  intros. unfold HotPdf.check_coordinates.
  destruct (x0 <? 0) eqn:E0, (x1 <? 0) eqn:E1,
           (y0 <? 0) eqn:E2, (y1 <? 0) eqn:E3; simpl; try reflexivity;
    try apply Z.ltb_lt in E0; try apply Z.ltb_lt in E1;
    try apply Z.ltb_lt in E2; try apply Z.ltb_lt in E3; lia.
Qed.

Lemma check_page_number_invalid (self : HotPdf.t) page :
  ~ valid_page self page ->
  HotPdf.check_page_number self page = Raise invalid_page_number.
Proof.
  unfold valid_page, HotPdf.check_page_number. intros Hbad.
  destruct (page <? 0) eqn:E0; [reflexivity|].
  destruct (page >=? len (HotPdf.pages self)) eqn:E1; [reflexivity|].
  apply Z.ltb_ge in E0. rewrite Z.geb_leb in E1. apply Z.leb_gt in E1. lia.
Qed.

Lemma check_page_number_valid (self : HotPdf.t) page :
  valid_page self page -> HotPdf.check_page_number self page = Ok tt.
Proof.
  unfold valid_page, HotPdf.check_page_number. intros Hok.
  destruct (page <? 0) eqn:E0; [apply Z.ltb_lt in E0; lia|].
  destruct (page >=? len (HotPdf.pages self)) eqn:E1; [|reflexivity].
  rewrite Z.geb_leb in E1. apply Z.leb_le in E1. lia.
Qed.

Lemma list_get_nth {A} (l : list A) (n : nat) (a : A) :
  nth_error l n = Some a -> list_get l (Z.of_nat n) = Ok a.
Proof.
  intros Hn. unfold list_get, len.
  assert (n < List.length l)%nat as Hlt
    by (apply nth_error_Some; congruence).
  destruct (Z.of_nat n <? 0) eqn:E; [apply Z.ltb_lt in E; lia|].
  destruct (Z.of_nat n <? 0) eqn:E0; [discriminate|].
  destruct (Z.of_nat (List.length l) <=? Z.of_nat n) eqn:E1;
    [apply Z.leb_le in E1; lia|].
  simpl. rewrite Nat2Z.id, Hn. reflexivity.
Qed.

Lemma list_get_valid {A} (l : list A) (i : Z) :
  0 <= i < len l ->
  exists a, nth_error l (Z.to_nat i) = Some a /\ list_get l i = Ok a.
Proof.
  intros Hi. unfold len in Hi.
  destruct (nth_error l (Z.to_nat i)) as [a|] eqn:E.
  - exists a. split; [reflexivity|].
    rewrite <- (Z2Nat.id i) by lia. now apply list_get_nth.
  - apply nth_error_None in E. lia.
Qed.

Lemma valid_page_nth (self : HotPdf.t) (n : nat) (m : MemoryMap) :
  nth_error (HotPdf.pages self) n = Some m ->
  valid_page self (Z.of_nat n).
Proof.
  intros Hn. unfold valid_page, len.
  assert (n < List.length (HotPdf.pages self))%nat
    by (apply nth_error_Some; congruence). lia.
Qed.

End Checks.

Section Surface.
Context `{Collaborators}.

Lemma fold_left_snoc {A B} (f : A -> B) (l : list A) (acc : list B) :
  fold_left (fun acc a => acc ++ [f a]) l acc = acc ++ map f l.
Proof.
  revert acc. induction l as [|a l IH]; intros acc; simpl.
  - now rewrite app_nil_r.
  - rewrite IH, <- app_assoc. reflexivity.
Qed.

Lemma check_page_range_raises first_page last_page :
  HotPdf.check_page_range first_page last_page = Raise invalid_page_range
  <-> first_page > last_page \/ first_page < 0 \/ last_page < 0.
Proof.
  unfold HotPdf.check_page_range.
  destruct (first_page >? last_page) eqn:E0; simpl.
  - split; [intros _|reflexivity]. left. now apply Z.gtb_lt in E0; lia.
  - destruct (first_page <? 0) eqn:E1; simpl.
    + split; [intros _|reflexivity]. apply Z.ltb_lt in E1. lia.
    + destruct (last_page <? 0) eqn:E2.
      * split; [intros _|reflexivity]. apply Z.ltb_lt in E2. lia.
      * split; [discriminate|]. intros Hbad.
        rewrite Z.gtb_ltb in E0. apply Z.ltb_ge in E0, E1, E2. lia.
Qed.

Lemma check_page_range_passes first_page last_page :
  HotPdf.check_page_range first_page last_page = Ok tt
  <-> 0 <= first_page <= last_page.
Proof.
  pose proof (check_page_range_raises first_page last_page) as [Hr Hl].
  unfold HotPdf.check_page_range in *.
  destruct ((first_page >? last_page) || (first_page <? 0) || (last_page <? 0)).
  - split; [discriminate|]. intros Hok. specialize (Hr eq_refl). lia.
  - split; [intros _|reflexivity].
    destruct (Z_le_gt_dec 0 first_page), (Z_le_gt_dec first_page last_page);
      try lia; (assert (Ok tt = Raise invalid_page_range) by (apply Hl; lia));
      discriminate.
Qed.

(** C4 (amended): the range check of [load] raises the invalid-range error
    exactly when first-page > last-page or either is negative, and passes
    exactly when 0 <= first-page <= last-page.  So 0 is accepted for both
    ends together and for the first page alone, while a positive first page
    with last page 0 is rejected: [load] raises the invalid-range error
    there, once the file check has passed. *)
Theorem load_page_range_check (self : HotPdf.t) (pdf_file : PdfFile)
  (password : string) (drop_duplicate_spans : bool) (first_page last_page : Z) :
  (HotPdf.check_page_range first_page last_page = Raise invalid_page_range
   <-> first_page > last_page \/ first_page < 0 \/ last_page < 0)
  /\ (HotPdf.check_page_range first_page last_page = Ok tt
      <-> 0 <= first_page <= last_page)
  /\ (file_found pdf_file ->
      first_page > last_page \/ first_page < 0 \/ last_page < 0 ->
      HotPdf.load self pdf_file password drop_duplicate_spans
        first_page last_page = Raise invalid_page_range)
  /\ (0 < first_page ->
      HotPdf.check_page_range first_page 0 = Raise invalid_page_range)
  /\ (0 <= last_page -> HotPdf.check_page_range 0 last_page = Ok tt).
Proof.
  split; [apply check_page_range_raises|].
  split; [apply check_page_range_passes|].
  split; [|split].
  - intros Hfile Hbad. unfold HotPdf.load, HotPdf.prechecks.
    apply check_page_range_raises in Hbad.
    destruct pdf_file as [path|path|handle]; simpl in *.
    + unfold HotPdf.check_file_exists. rewrite Hfile. simpl.
      now rewrite Hbad.
    + now rewrite Hbad.
    + now rewrite Hbad.
  - intros Hpos. apply check_page_range_raises. lia.
  - intros Hpos. apply check_page_range_passes. lia.
Qed.

(** C8: a negative coordinate makes [extract_text], [extract_spans] and
    [extract_spans_text] raise the invalid-coordinates error, whatever the
    document, the page argument and the page index are: the check is the
    first thing each of them does. *)
Theorem negative_coordinate_rejected (self : HotPdf.t) (x0 y0 x1 y1 page : Z) :
  x0 < 0 \/ y0 < 0 \/ x1 < 0 \/ y1 < 0 ->
  HotPdf.extract_text self x0 y0 x1 y1 page = Raise invalid_coordinates
  /\ HotPdf.extract_spans self x0 y0 x1 y1 page = Raise invalid_coordinates
  /\ HotPdf.extract_spans_text self x0 y0 x1 y1 page
     = Raise invalid_coordinates.
Proof.
  intros Hneg. apply check_coordinates_neg in Hneg.
  unfold HotPdf.extract_text, HotPdf.extract_spans, HotPdf.extract_spans_text.
  rewrite Hneg. simpl. auto.
Qed.

(** C9: [extract_spans_text] returns the texts of the spans that
    [extract_spans] returns for the same arguments, concatenated in the
    order of that list; when [extract_spans] raises, it raises the same. *)
Theorem extract_spans_text_concat (self : HotPdf.t) (x0 y0 x1 y1 page : Z) :
  HotPdf.extract_spans_text self x0 y0 x1 y1 page
  = fmap (fun spans => String.concat EmptyString (map to_text spans))
      (HotPdf.extract_spans self x0 y0 x1 y1 page).
Proof.
  unfold HotPdf.extract_spans_text, fmap.
  destruct (HotPdf.check_coordinates x0 y0 x1 y1) as [[]|e] eqn:Ec.
  - destruct (HotPdf.check_page_number self page) as [[]|e] eqn:Ep; simpl.
    + destruct (HotPdf.extract_spans self x0 y0 x1 y1 page) as [spans|e];
        simpl; [|reflexivity].
      now rewrite fold_left_snoc.
    + unfold HotPdf.extract_spans. rewrite Ec. simpl. rewrite Ep.
      reflexivity.
  - unfold HotPdf.extract_spans. rewrite Ec. reflexivity.
Qed.

(** C5 (amended): on a loaded page with non-negative extents,
    [extract_page_text] asks the page index for the box [0..width] by
    [0..height], while [extract_text] over the full page extents asks for
    the box padded to [width + extraction_tolerance]; the two return the
    same string when the extraction tolerance is 0. *)
Theorem extract_page_text_box (self : HotPdf.t) (n : nat) (m : MemoryMap) :
  nth_error (HotPdf.pages self) n = Some m ->
  0 <= width m -> 0 <= height m ->
  HotPdf.extract_page_text self (Z.of_nat n)
  = extract_text_from_bbox m 0 (width m) 0 (height m)
  /\ HotPdf.extract_text self 0 0 (width m) (height m) (Z.of_nat n)
     = extract_text_from_bbox m
         0 (width m + HotPdf.extraction_tolerance self) 0 (height m)
  /\ (HotPdf.extraction_tolerance self = 0 ->
      HotPdf.extract_page_text self (Z.of_nat n)
      = HotPdf.extract_text self 0 0 (width m) (height m) (Z.of_nat n)).
Proof.
  intros Hn Hw Hh.
  assert (HotPdf.extract_page_text self (Z.of_nat n)
          = extract_text_from_bbox m 0 (width m) 0 (height m)) as Hpage.
  { unfold HotPdf.extract_page_text.
    rewrite (check_page_number_valid self) by (eapply valid_page_nth; eauto).
    simpl. now rewrite (list_get_nth _ _ _ Hn). }
  assert (HotPdf.extract_text self 0 0 (width m) (height m) (Z.of_nat n)
          = extract_text_from_bbox m
              0 (width m + HotPdf.extraction_tolerance self) 0 (height m))
    as Htext.
  { unfold HotPdf.extract_text.
    rewrite check_coordinates_nonneg by lia.
    simpl.
    rewrite (check_page_number_valid self) by (eapply valid_page_nth; eauto).
    simpl. now rewrite (list_get_nth _ _ _ Hn). }
  repeat split; [exact Hpage|exact Htext|].
  intros Htol. rewrite Hpage, Htext, Htol, Z.add_0_r. reflexivity.
Qed.

End Surface.

(** ** Dictionaries built by a loop *)

Section DictFacts.
Context {A V : Type} (kf : A -> Z) (g : A -> result V).

Lemma dict_set_in (d : list (Z * V)) k v k' v' :
  In (k', v') (dict_set Z.eqb d k v) ->
  (k' = k /\ v' = v) \/ In (k', v') d.
Proof.
  induction d as [|[k0 v0] d IH]; simpl.
  - intros [E|[]]. inversion E. now left.
  - destruct (Z.eqb_spec k k0) as [->|Hne].
    + intros [E|Hin]; [inversion E; now left|right; now right].
    + intros [E|Hin]; [right; now left|].
      destruct (IH Hin) as [?|?]; [now left|right; now right].
Qed.

Lemma dict_set_fresh (d : list (Z * V)) k v :
  ~ In k (keys d) -> dict_set Z.eqb d k v = d ++ [(k, v)].
Proof.
  induction d as [|[k0 v0] d IH]; simpl; intros Hk; [reflexivity|].
  destruct (Z.eqb_spec k k0) as [->|Hne]; [tauto|].
  rewrite IH; [reflexivity|tauto].
Qed.

Lemma dict_set_keys (d : list (Z * V)) k v :
  In k (keys d) -> keys (dict_set Z.eqb d k v) = keys d.
Proof.
  induction d as [|[k0 v0] d IH]; simpl; intros Hk; [tauto|].
  destruct (Z.eqb_spec k k0) as [->|Hne]; [reflexivity|].
  simpl. f_equal. apply IH. destruct Hk; congruence.
Qed.

Lemma dict_set_nodup (d : list (Z * V)) k v :
  NoDup (keys d) -> NoDup (keys (dict_set Z.eqb d k v)).
Proof.
  intros Hd. destruct (in_dec Z.eq_dec k (keys d)) as [Hin|Hout].
  - now rewrite dict_set_keys.
  - rewrite dict_set_fresh by assumption. unfold keys in *.
    rewrite map_app. simpl. apply NoDup_app; auto.
    + constructor; [intros []|constructor].
    + intros k1 Hk1 [<-|[]]. contradiction.
Qed.

Lemma foldM_set_in (l : list A) :
  forall d0 d k v,
    foldM (fun d a => v <- g a ;; Ok (dict_set Z.eqb d (kf a) v)) l d0
    = Ok d ->
    In (k, v) d ->
    In (k, v) d0 \/ exists a, In a l /\ kf a = k /\ g a = Ok v.
Proof.
  induction l as [|a l IH]; simpl; intros d0 d k v Hrun Hin.
  - inversion Hrun; subst. now left.
  - destruct (g a) as [va|e] eqn:Ea; simpl in Hrun; [|discriminate].
    destruct (IH _ _ _ _ Hrun Hin) as [Hold|(b & Hb & Hk & Hg)].
    + apply dict_set_in in Hold as [[-> ->]|Hold]; [|now left].
      right. exists a. auto.
    + right. exists b. auto.
Qed.

Lemma foldM_set_nodup (l : list A) :
  forall d0 d,
    NoDup (keys d0) ->
    foldM (fun d a => v <- g a ;; Ok (dict_set Z.eqb d (kf a) v)) l d0
    = Ok d ->
    NoDup (keys d).
Proof.
  induction l as [|a l IH]; simpl; intros d0 d Hd Hrun.
  - now inversion Hrun; subst.
  - destruct (g a) as [va|e]; simpl in Hrun; [|discriminate].
    eapply IH; [|exact Hrun]. now apply dict_set_nodup.
Qed.

(** Over distinct new keys the loop appends one entry per item, in order. *)
Lemma foldM_set_fresh (l : list A) :
  forall d0 d,
    NoDup (map kf l) ->
    (forall a, In a l -> ~ In (kf a) (keys d0)) ->
    foldM (fun d a => v <- g a ;; Ok (dict_set Z.eqb d (kf a) v)) l d0
    = Ok d ->
    exists vs, Forall2 (fun a v => g a = Ok v) l vs
               /\ d = d0 ++ combine (map kf l) vs.
Proof.
  induction l as [|a l IH]; simpl; intros d0 d Hnd Hfresh Hrun.
  - inversion Hrun; subst. exists []. split; [constructor|].
    now rewrite app_nil_r.
  - destruct (g a) as [va|e] eqn:Ea; simpl in Hrun; [|discriminate].
    inversion Hnd as [|? ? Hna Hnd']; subst.
    rewrite dict_set_fresh in Hrun by (apply Hfresh; now left).
    apply IH in Hrun as (vs & Hvs & ->); [|assumption|].
    + exists (va :: vs). split; [now constructor|].
      now rewrite <- app_assoc.
    + intros b Hb Hin. unfold keys in Hin. rewrite map_app in Hin.
      apply in_app_or in Hin as [Hin|[Hin|[]]].
      * apply (Hfresh b); [now right|exact Hin].
      * simpl in Hin. apply Hna. rewrite Hin. now apply in_map.
Qed.

Lemma keys_combine (ks : list Z) (vs : list V) :
  List.length ks = List.length vs -> keys (combine ks vs) = ks.
Proof.
  revert vs. induction ks as [|k ks IH]; intros [|v vs] Hlen;
    simpl in *; try discriminate; [reflexivity|].
  f_equal. apply IH. congruence.
Qed.

Lemma foldM_set_keys (l : list A) (d : list (Z * V)) :
  NoDup (map kf l) ->
  foldM (fun d a => v <- g a ;; Ok (dict_set Z.eqb d (kf a) v)) l [] = Ok d ->
  keys d = map kf l.
Proof.
  intros Hnd Hrun.
  apply foldM_set_fresh in Hrun as (vs & Hvs & ->); auto.
  simpl. apply keys_combine. rewrite length_map.
  now apply Forall2_length in Hvs.
Qed.

End DictFacts.

(** ** The search pipeline *)

Section Search.
Context `{Collaborators}.

Lemma for_each_pages_valid (self : HotPdf.t) (l : list Z) :
  Forall (valid_page self) l ->
  for_each (HotPdf.check_page_number self) l = Ok tt.
Proof.
  unfold for_each. induction 1 as [|p l Hp _ IH]; simpl; [reflexivity|].
  now rewrite check_page_number_valid.
Qed.

Lemma for_each_pages_invalid (self : HotPdf.t) (l : list Z) :
  Exists (fun p => ~ valid_page self p) l ->
  for_each (HotPdf.check_page_number self) l = Raise invalid_page_number.
Proof.
  unfold for_each. induction 1 as [p l Hp|p l _ IH]; simpl.
  - now rewrite check_page_number_invalid.
  - destruct (HotPdf.check_page_number self p) as [[]|e] eqn:E; simpl.
    + exact IH.
    + unfold HotPdf.check_page_number in E.
      destruct ((p <? 0) || (p >=? len (HotPdf.pages self)));
        [now inversion E|discriminate].
Qed.

Lemma range_valid (self : HotPdf.t) :
  Forall (valid_page self) (range (len (HotPdf.pages self))).
Proof.
  apply Forall_forall. intros p Hp. unfold range in Hp.
  apply in_map_iff in Hp as (n & <- & Hn). apply in_seq in Hn.
  unfold valid_page, len in *. rewrite Nat2Z.id in Hn. lia.
Qed.

Lemma range_nodup (n : Z) : NoDup (range n).
Proof.
  unfold range. apply Finite.Injective_map_NoDup; [|apply seq_NoDup].
  intros a b. apply Nat2Z.inj.
Qed.

Lemma len_range (n : Z) : 0 <= n -> len (range n) = n.
Proof.
  intros Hn. unfold len, range. rewrite length_map, length_seq. lia.
Qed.

(** The loop body never meets a span identifier it has seen: the list is
    created anew for every occurrence, so the body appends whenever the
    validation lets the occurrence through. *)
Lemma occurrence_body_eq (self : HotPdf.t) query validate take_span sort
  page_num acc hot_characters :
  HotPdf.occurrence_body self query validate take_span sort page_num acc
    hot_characters
  = (d <- get_element_dimension hot_characters ;;
     text <- HotPdf.extract_text self
               (ElementDimension.x0 d) (ElementDimension.y0 d)
               (ElementDimension.x1 d) (ElementDimension.y1 d) page_num ;;
     if str_in query text || negb validate then
       full <- (if take_span
                then HotPdf.extract_full_text_span self hot_characters page_num
                else Ok None) ;;
       Ok (acc ++ [with_sort sort
                     (HotPdf.span_or_raw take_span full hot_characters)])
     else Ok acc).
Proof.
  unfold HotPdf.occurrence_body.
  destruct (get_element_dimension hot_characters) as [d|e]; simpl;
    [|reflexivity].
  destruct (HotPdf.extract_text _ _ _ _ _ _) as [text|e]; simpl;
    [|reflexivity].
  destruct (str_in query text || negb validate); [|reflexivity].
  destruct (if take_span then _ else _) as [full|e]; simpl; [|reflexivity].
  destruct (HotPdf.span_or_raw take_span full hot_characters) as [|c cs];
    destruct sort; reflexivity.
Qed.

(** What one page's loop returns: each returned occurrence comes from one
    occurrence of the filtered hits that passed the validation. *)
Lemma page_loop_origin (self : HotPdf.t) query validate take_span sort
  page_num (raw : PageResult) :
  forall acc occs,
    foldM (HotPdf.occurrence_body self query validate take_span sort page_num)
      raw acc = Ok occs ->
    exists fresh, occs = acc ++ fresh /\
      forall o, In o fresh ->
        exists h d text full,
          In h raw
          /\ get_element_dimension h = Ok d
          /\ HotPdf.extract_text self
               (ElementDimension.x0 d) (ElementDimension.y0 d)
               (ElementDimension.x1 d) (ElementDimension.y1 d) page_num
             = Ok text
          /\ str_in query text || negb validate = true
          /\ (if take_span
              then HotPdf.extract_full_text_span self h page_num
              else Ok None) = Ok full
          /\ o = with_sort sort (HotPdf.span_or_raw take_span full h).
Proof.
  induction raw as [|h raw IH]; simpl; intros acc occs Hrun.
  - inversion Hrun; subst. exists []. split; [now rewrite app_nil_r|].
    intros o [].
  - rewrite occurrence_body_eq in Hrun.
    destruct (get_element_dimension h) as [d|e] eqn:Ed; simpl in Hrun;
      [|discriminate].
    destruct (HotPdf.extract_text _ _ _ _ _ _) as [text|e] eqn:Et;
      simpl in Hrun; [|discriminate].
    destruct (str_in query text || negb validate) eqn:Ev.
    + destruct (if take_span then _ else _) as [full|e] eqn:Ef;
        simpl in Hrun; [|discriminate].
      apply IH in Hrun as (fresh & -> & Hfresh).
      exists (with_sort sort (HotPdf.span_or_raw take_span full h) :: fresh).
      split; [now rewrite <- app_assoc|].
      intros o [<-|Ho].
      * exists h, d, text, full. repeat split; auto.
      * destruct (Hfresh o Ho) as (h' & d' & t' & f' & Hin & Hrest).
        exists h', d', t', f'. split; [now right|exact Hrest].
    + apply IH in Hrun as (fresh & -> & Hfresh).
      exists fresh. split; [reflexivity|].
      intros o Ho. destruct (Hfresh o Ho) as (h' & d' & t' & f' & Hin & Hrest).
      exists h', d', t', f'. split; [now right|exact Hrest].
Qed.

(** Every page of a search result is a loaded page; its occurrences are
    what the page loop makes of that page's filtered hits. *)
Lemma find_text_page (self : HotPdf.t) query pages_arg validate take_span
  sort res page_num occs :
  HotPdf.find_text self query pages_arg validate take_span sort = Ok res ->
  In (page_num, occs) res ->
  exists m raw,
    list_get (HotPdf.pages self) page_num = Ok m
    /\ (hits <- memory_map_find_text m query ;; filter_adjacent_coords hits)
       = Ok raw
    /\ foldM (HotPdf.occurrence_body self query validate take_span sort
                page_num) raw [] = Ok occs.
Proof.
  unfold HotPdf.find_text. intros Hrun Hin.
  destruct (for_each _ _) as [[]|e]; simpl in Hrun; [|discriminate].
  match type of Hrun with
  | bind (foldM ?f ?l []) _ = _ =>
      destruct (foldM f l []) as [query_pages|e] eqn:E2;
      simpl in Hrun; [|discriminate]
  end.
  match type of Hrun with
  | bind (foldM ?f ?l []) _ = _ =>
      destruct (foldM f l []) as [found|e] eqn:E3;
      simpl in Hrun; [|discriminate]
  end.
  eapply (foldM_set_in fst) in Hrun as [[]|(item & Hitem & Hk & Hfound)];
    [|exact Hin].
  destruct item as [k raw]. simpl in Hk, Hfound. subst k.
  eapply (foldM_set_in fst) in E3 as [[]|(item & Hitem2 & Hk & Hsearch)];
    [|exact Hitem].
  destruct item as [k m]. simpl in Hk, Hsearch. subst k.
  eapply (foldM_set_in (fun i => i)) in E2 as [[]|(i & _ & -> & Hget)];
    [|exact Hitem2].
  exists m, raw. auto.
Qed.

End Search.

(** ** Sorting the characters of an occurrence *)

Section Sorting.

Lemma key_le_total a b : key_le a b = false -> key_le b a = true.
Proof.
  unfold key_le. intros Hab.
  apply orb_false_iff in Hab as [Hlt Hrest]. apply Z.ltb_ge in Hlt.
  destruct (HotCharacter.x b <? HotCharacter.x a) eqn:E; [reflexivity|].
  apply Z.ltb_ge in E. simpl.
  assert (HotCharacter.x a = HotCharacter.x b) as Heq by lia.
  rewrite Heq, Z.eqb_refl in *. simpl in *.
  apply Z.leb_gt in Hrest. apply Z.leb_le. lia.
Qed.

Lemma key_le_iff a b :
  key_le a b = true <->
  HotCharacter.x a < HotCharacter.x b
  \/ (HotCharacter.x a = HotCharacter.x b
      /\ HotCharacter.y a <= HotCharacter.y b).
Proof.
  unfold key_le.
  rewrite orb_true_iff, andb_true_iff, Z.ltb_lt, Z.eqb_eq, Z.leb_le.
  tauto.
Qed.

Lemma key_le_trans a b c :
  key_le a b = true -> key_le b c = true -> key_le a c = true.
Proof. rewrite !key_le_iff. lia. Qed.

Lemma insert_by_perm le c l : Permutation (insert_by le c l) (c :: l).
Proof.
  induction l as [|d l IH]; simpl; [reflexivity|].
  destruct (le c d); [reflexivity|].
  rewrite IH. apply perm_swap.
Qed.

Lemma sorted_by_perm le l : Permutation (sorted_by le l) l.
Proof.
  induction l as [|c l IH]; simpl; [reflexivity|].
  rewrite insert_by_perm. now constructor.
Qed.

Lemma insert_by_ascending c l :
  ascending_xy l -> ascending_xy (insert_by key_le c l).
Proof.
  unfold ascending_xy. induction 1 as [|d l Hl IH Hd]; simpl.
  - constructor; constructor.
  - destruct (key_le c d) eqn:E.
    + constructor; [now constructor|].
      constructor; [exact E|].
      eapply Forall_impl; [|exact Hd].
      intros e He. eapply key_le_trans; eauto.
    + constructor; [exact IH|].
      eapply Permutation_Forall; [symmetry; apply insert_by_perm|].
      constructor; [now apply key_le_total|exact Hd].
Qed.

Lemma sorted_by_ascending l : ascending_xy (sorted_by key_le l).
Proof.
  induction l as [|c l IH]; simpl; [constructor|].
  now apply insert_by_ascending.
Qed.

Lemma dict_set_sort_result (d : SearchResult) k (v : PageResult) :
  dict_set Z.eqb (sort_result d) k (map (sorted_by key_le) v)
  = sort_result (dict_set Z.eqb d k v).
Proof.
  induction d as [|[k0 v0] d IH]; simpl; [reflexivity|].
  destruct (k =? k0); simpl; [reflexivity|]. now rewrite IH.
Qed.

End Sorting.

Section SortFlag.
Context `{Collaborators}.

Lemma occurrence_body_sort (self : HotPdf.t) query validate take_span
  page_num acc h :
  HotPdf.occurrence_body self query validate take_span true page_num
    (map (sorted_by key_le) acc) h
  = fmap (map (sorted_by key_le))
      (HotPdf.occurrence_body self query validate take_span false page_num
         acc h).
Proof.
  rewrite !occurrence_body_eq. unfold fmap.
  destruct (get_element_dimension h) as [d|e]; simpl; [|reflexivity].
  destruct (HotPdf.extract_text _ _ _ _ _ _) as [text|e]; simpl;
    [|reflexivity].
  destruct (str_in query text || negb validate); [|reflexivity].
  destruct (if take_span then _ else _) as [full|e]; simpl; [|reflexivity].
  now rewrite map_app.
Qed.

Lemma page_loop_sort (self : HotPdf.t) query validate take_span page_num
  (raw : PageResult) :
  forall acc,
    foldM (HotPdf.occurrence_body self query validate take_span true page_num)
      raw (map (sorted_by key_le) acc)
    = fmap (map (sorted_by key_le))
        (foldM (HotPdf.occurrence_body self query validate take_span false
                  page_num) raw acc).
Proof.
  induction raw as [|h raw IH]; intros acc; simpl; [reflexivity|].
  rewrite occurrence_body_sort. unfold fmap at 1.
  destruct (HotPdf.occurrence_body _ _ _ _ false _ acc h) as [acc'|e]; simpl;
    [apply IH|reflexivity].
Qed.

(** The [sort] flag changes nothing but the order of the characters inside
    each occurrence. *)
Lemma find_text_sort (self : HotPdf.t) query pages_arg validate take_span :
  HotPdf.find_text self query pages_arg validate take_span true
  = fmap sort_result
      (HotPdf.find_text self query pages_arg validate take_span false).
Proof.
  unfold HotPdf.find_text.
  destruct (for_each _ _) as [[]|e]; simpl; [|reflexivity].
  match goal with
  | |- bind (foldM ?f ?l []) _ = _ =>
      destruct (foldM f l []) as [query_pages|e]; simpl; [|reflexivity]
  end.
  match goal with
  | |- bind (foldM ?f ?l []) _ = _ =>
      destruct (foldM f l []) as [found|e]; simpl; [|reflexivity]
  end.
  change (@nil (Z * PageResult)) with (sort_result []) at 1.
  generalize (@nil (Z * PageResult)) as final.
  induction found as [|[k raw] found IH]; intros final; simpl;
    [reflexivity|].
  pose proof (page_loop_sort self query validate take_span k raw []) as Hloop.
  simpl in Hloop. rewrite Hloop. unfold fmap at 1.
  destruct (foldM (HotPdf.occurrence_body self query validate take_span false
                     k) raw []) as [occs|e]; simpl; [|reflexivity].
  rewrite dict_set_sort_result. apply IH.
Qed.

End SortFlag.

(** ** What [find_text] returns *)

Section FindText.
Context `{Collaborators}.

Lemma sort_result_in (res : SearchResult) page_num occs :
  In (page_num, occs) (sort_result res) ->
  exists occs0, In (page_num, occs0) res
                /\ occs = map (sorted_by key_le) occs0.
Proof.
  unfold sort_result. intros Hin.
  apply in_map_iff in Hin as ([k occs0] & E & Hin). inversion E; subst.
  exists occs0. auto.
Qed.

(** C2 (amended): with [sort=true] the result is the result of
    [sort=false] with the characters of every occurrence sorted, so each
    returned occurrence has its characters in ascending [(x, y)] order and
    the occurrences of a page keep the order the search produced them
    in. *)
Theorem find_text_sorts_characters (self : HotPdf.t) query pages_arg
  validate take_span :
  HotPdf.find_text self query pages_arg validate take_span true
  = fmap sort_result
      (HotPdf.find_text self query pages_arg validate take_span false)
  /\ forall res page_num occs o,
       HotPdf.find_text self query pages_arg validate take_span true
       = Ok res ->
       In (page_num, occs) res -> In o occs -> ascending_xy o.
Proof.
  split; [apply find_text_sort|].
  intros res page_num occs o Hrun Hpage Ho.
  rewrite find_text_sort in Hrun. unfold fmap in Hrun.
  destruct (HotPdf.find_text _ _ _ _ _ false) as [res0|e]; simpl in Hrun;
    [|discriminate].
  inversion Hrun; subst res.
  apply sort_result_in in Hpage as (occs0 & _ & ->).
  apply in_map_iff in Ho as (o0 & <- & _).
  apply sorted_by_ascending.
Qed.

(** C3 (amended): with [take_span=true], an occurrence that passed the
    validation and whose first character carries a non-empty span
    identifier is replaced by the character list of the span registered
    under that identifier, when that list is non-empty, whatever
    identifiers its other characters carry; an occurrence whose first
    character carries no span identifier is kept as it was found.  In both
    cases the characters are sorted when [sort=true]. *)
Theorem span_promotion_by_first_character (self : HotPdf.t) query validate
  sort page_num acc (first : HotCharacter.t) (rest : Occurrence) d text m :
  get_element_dimension (first :: rest) = Ok d ->
  HotPdf.extract_text self
    (ElementDimension.x0 d) (ElementDimension.y0 d)
    (ElementDimension.x1 d) (ElementDimension.y1 d) page_num = Ok text ->
  str_in query text || negb validate = true ->
  list_get (HotPdf.pages self) page_num = Ok m ->
  (forall id sp,
      HotCharacter.span_id first = Some id -> id <> EmptyString ->
      dict_find String.eqb (span_map m) id = Some sp ->
      Span.characters sp <> [] ->
      HotPdf.occurrence_body self query validate true sort page_num acc
        (first :: rest)
      = Ok (acc ++ [with_sort sort (Span.characters sp)]))
  /\ (truthy_id (HotCharacter.span_id first) = false ->
      HotPdf.occurrence_body self query validate true sort page_num acc
        (first :: rest)
      = Ok (acc ++ [with_sort sort (first :: rest)])).
Proof.
  intros Hd Ht Hv Hm.
  split.
  - intros id sp Hid Hne Hsp Hchars.
    rewrite occurrence_body_eq, Hd. simpl. rewrite Ht. simpl. rewrite Hv.
    unfold HotPdf.extract_full_text_span. simpl.
    rewrite Hid. destruct id as [|a id]; [congruence|]. simpl.
    rewrite Hm. simpl. rewrite Hsp. simpl.
    destruct (Span.characters sp) as [|c cs]; [congruence|]. reflexivity.
  - intros Hfalse.
    rewrite occurrence_body_eq, Hd. simpl. rewrite Ht. simpl. rewrite Hv.
    unfold HotPdf.extract_full_text_span. simpl.
    rewrite Hfalse. reflexivity.
Qed.

(** C6 (amended): with [validate=true] and [take_span=false], the query is
    a substring of what [extract_text] returns over the bounding box of
    every returned occurrence -- given, for [sort=true], that sorting a
    character list leaves the four coordinates of its bounding box as
    they were (the validation looks at the occurrence as found, the
    result holds it sorted). *)
Theorem find_text_validated (self : HotPdf.t) query pages_arg sort res
  page_num occs o :
  (sort = true ->
   forall l d,
     get_element_dimension l = Ok d ->
     exists d', get_element_dimension (sorted_by key_le l) = Ok d'
                /\ same_coordinates d' d) ->
  HotPdf.find_text self query pages_arg true false sort = Ok res ->
  In (page_num, occs) res -> In o occs ->
  exists d text,
    get_element_dimension o = Ok d
    /\ HotPdf.extract_text self
         (ElementDimension.x0 d) (ElementDimension.y0 d)
         (ElementDimension.x1 d) (ElementDimension.y1 d) page_num = Ok text
    /\ str_in query text = true.
Proof.
  intros Hbox Hrun Hpage Ho.
  destruct (find_text_page _ _ _ _ _ _ _ _ _ Hrun Hpage)
    as (m & raw & _ & _ & Hloop).
  apply page_loop_origin in Hloop as (fresh & -> & Hfresh).
  simpl in Ho.
  destruct (Hfresh o Ho) as (h & d & text & full & _ & Hd & Ht & Hv & Hf & ->).
  inversion Hf; subst full. simpl.
  rewrite orb_false_r in Hv.
  destruct sort; simpl.
  - destruct (Hbox eq_refl h d Hd) as (d' & Hd' & Ex0 & Ey0 & Ex1 & Ey1).
    exists d', text. rewrite Ex0, Ey0, Ex1, Ey1. auto.
  - exists d, text. auto.
Qed.

(** C10 (amended): [HotPdf()] has no loaded page, and on it
    [extract_page_text] and [find_text] with a non-empty [pages] list
    raise the invalid-page-number error for every page argument, as do
    [extract_text], [extract_spans] and [extract_spans_text] whenever no
    coordinate is negative. *)
Theorem empty_document_rejects_pages (password : string)
  (drop_duplicate_spans : bool) (first_page last_page tolerance : Z) :
  HotPdf.init None password drop_duplicate_spans first_page last_page
    tolerance = Ok (HotPdf.mk [] tolerance)
  /\ forall page : Z,
      HotPdf.extract_page_text (HotPdf.mk [] tolerance) page
      = Raise invalid_page_number
      /\ (forall query others validate take_span sort,
             HotPdf.find_text (HotPdf.mk [] tolerance) query
               (Some (page :: others)) validate take_span sort
             = Raise invalid_page_number)
      /\ (forall x0 y0 x1 y1,
             0 <= x0 -> 0 <= y0 -> 0 <= x1 -> 0 <= y1 ->
             HotPdf.extract_text (HotPdf.mk [] tolerance) x0 y0 x1 y1 page
             = Raise invalid_page_number
             /\ HotPdf.extract_spans (HotPdf.mk [] tolerance) x0 y0 x1 y1 page
                = Raise invalid_page_number
             /\ HotPdf.extract_spans_text (HotPdf.mk [] tolerance)
                  x0 y0 x1 y1 page
                = Raise invalid_page_number).
Proof.
  split; [reflexivity|]. intros page.
  assert (HotPdf.check_page_number (HotPdf.mk [] tolerance) page
          = Raise invalid_page_number) as Hpage.
  { apply check_page_number_invalid. unfold valid_page, len. simpl. lia. }
  split; [|split].
  - unfold HotPdf.extract_page_text. now rewrite Hpage.
  - intros. unfold HotPdf.find_text, for_each. simpl. now rewrite Hpage.
  - intros x0 y0 x1 y1 Hx0 Hy0 Hx1 Hy1.
    unfold HotPdf.extract_text, HotPdf.extract_spans,
      HotPdf.extract_spans_text.
    rewrite check_coordinates_nonneg by assumption. simpl.
    rewrite Hpage. simpl. auto.
Qed.

End FindText.

(** ** The bounding box of the page index *)

Section BoundingBox.
Import PageIndex.
Variable f : HotCharacter.t -> Z.

Lemma fold_min_spec (l : Occurrence) :
  forall m,
    let r := fold_left (fun m d => Z.min m (f d)) l m in
    r <= m /\ (forall d, In d l -> r <= f d)
    /\ (r = m \/ exists d, In d l /\ r = f d).
Proof.
  induction l as [|c l IH]; intros m; simpl.
  - repeat split; [lia|tauto|now left].
  - destruct (IH (Z.min m (f c))) as (Hle & Hall & Hatt).
    repeat split.
    + lia.
    + intros d [<-|Hd]; [lia|now apply Hall].
    + destruct Hatt as [Hatt|(d & Hd & Hatt)].
      * destruct (Z.min_spec m (f c)) as [[_ E]|[_ E]].
        -- left. congruence.
        -- right. exists c. split; [now left|congruence].
      * right. exists d. auto.
Qed.

Lemma min_of_spec c l :
  (forall d, In d (c :: l) -> min_of f c l <= f d)
  /\ exists d, In d (c :: l) /\ min_of f c l = f d.
Proof.
  unfold min_of. destruct (fold_min_spec l (f c)) as (Hle & Hall & Hatt).
  split.
  - intros d [<-|Hd]; [exact Hle|now apply Hall].
  - destruct Hatt as [Hatt|(d & Hd & Hatt)].
    + exists c. split; [now left|exact Hatt].
    + exists d. split; [now right|exact Hatt].
Qed.

Lemma min_of_perm c l c' l' :
  Permutation (c :: l) (c' :: l') -> min_of f c l = min_of f c' l'.
Proof.
  intros Hp.
  destruct (min_of_spec c l) as (Hlow & d & Hd & Hatt).
  destruct (min_of_spec c' l') as (Hlow' & d' & Hd' & Hatt').
  apply Z.le_antisymm.
  - rewrite Hatt'. apply Hlow.
    eapply Permutation_in; [symmetry; exact Hp|exact Hd'].
  - rewrite Hatt. apply Hlow'.
    eapply Permutation_in; [exact Hp|exact Hd].
Qed.

End BoundingBox.

Section BoundingBoxPerm.
Import PageIndex.

Lemma max_of_min_of f c l :
  max_of f c l = - min_of (fun d => - f d) c l.
Proof.
  unfold max_of, min_of. generalize (f c) as m.
  induction l as [|d l IH]; intros m; simpl; [lia|].
  rewrite IH, Z.opp_max_distr. reflexivity.
Qed.

Lemma max_of_perm f c l c' l' :
  Permutation (c :: l) (c' :: l') -> max_of f c l = max_of f c' l'.
Proof.
  intros Hp. rewrite !max_of_min_of. f_equal. now apply min_of_perm.
Qed.

Lemma bounding_box_perm (l l' : Occurrence) :
  Permutation l l' -> bounding_box l = bounding_box l'.
Proof.
  intros Hp. destruct l as [|c l], l' as [|c' l']; simpl.
  - reflexivity.
  - apply Permutation_nil in Hp. discriminate.
  - symmetry in Hp. apply Permutation_nil in Hp. discriminate.
  - rewrite (min_of_perm HotCharacter.x c l c' l' Hp),
      (min_of_perm HotCharacter.y c l c' l' Hp),
      (max_of_perm HotCharacter.x c l c' l' Hp),
      (max_of_perm HotCharacter.y c l c' l' Hp).
    reflexivity.
Qed.

Lemma bounding_box_sorted (l : Occurrence) :
  bounding_box (sorted_by key_le l) = bounding_box l.
Proof. apply bounding_box_perm, sorted_by_perm. Qed.

End BoundingBoxPerm.

(** ** The concrete documents *)

Import Examples.

Example str_in_middle : str_in "ab" "xaby" = true.
Proof. reflexivity. Qed.

Example str_in_empty_query : str_in EmptyString "xa" = true.
Proof. reflexivity. Qed.

Example list_get_last : list_get [10; 20; 30] (-1) = Ok 30.
Proof. reflexivity. Qed.

Example list_get_outside : list_get [10; 20; 30] 3 = Raise IndexError.
Proof. reflexivity. Qed.

Example sorted_by_stable :
  sorted_by key_le [ch "b" 1 0 "s"; ch "a" 0 5 "s"; ch "c" 1 0 "t"]
  = [ch "a" 0 5 "s"; ch "b" 1 0 "s"; ch "c" 1 0 "t"].
Proof. reflexivity. Qed.

Example find_text_without_span_promotion :
  HotPdf.find_text line_pdf "hi" None true false true
  = Ok [(0, [[ch "h" 0 0 "s1"; ch "i" 10 0 "s1"];
             [ch "h" 30 0 "s1"; ch "i" 40 0 "s1"]])].
Proof. vm_compute. reflexivity. Qed.

Example find_text_missing_page :
  HotPdf.find_text line_pdf "x" (Some [99]) true false true
  = Raise invalid_page_number.
Proof. reflexivity. Qed.

(** C1 (the code at the failing input): the line [hi-hi] is one span; with
    [take_span=true] both hits of the query are promoted to that span and
    both are returned, so the page's list holds the span identifier [s1]
    twice. *)
Theorem find_text_repeats_span :
  HotPdf.find_text line_pdf "hi" None true true true
  = Ok [(0, [line_chars; line_chars])]
  /\ map occurrence_span_id [line_chars; line_chars]
     = [Some (Some "s1"); Some (Some "s1")]
  /\ ~ NoDup (map occurrence_span_id [line_chars; line_chars]).
Proof.
  split; [vm_compute; reflexivity|]. split; [reflexivity|].
  intros Hnd. inversion Hnd as [|? ? Hnotin _]; subst.
  apply Hnotin. now left.
Qed.

(** C2 (counterexample): the right-hand word is found first and stays
    first with [sort=true], although its [(min-x, min-y)] is the larger. *)
Lemma find_text_keeps_search_order :
  HotPdf.find_text two_pdf "hi" None true false true
  = Ok [(0, [right_chars; left_chars])]
  /\ min_xy right_chars = Some (50, 0)
  /\ min_xy left_chars = Some (0, 10)
  /\ non_decreasing [right_chars; left_chars] = false.
Proof.
  split; [vm_compute; reflexivity|]. split; [reflexivity|].
  split; reflexivity.
Qed.

Lemma find_text_sorts_characters_witness :
  HotPdf.find_text two_pdf "hi" None true false true
  = Ok [(0, [right_chars; left_chars])]
  /\ In (0, [right_chars; left_chars]) [(0, [right_chars; left_chars])]
  /\ In left_chars [right_chars; left_chars]
  /\ ascending_xy left_chars.
Proof.
  assert (HotPdf.find_text two_pdf "hi" None true false true
          = Ok [(0, [right_chars; left_chars])]) as Hrun
    by (vm_compute; reflexivity).
  assert (In (0, [right_chars; left_chars]) [(0, [right_chars; left_chars])])
    as Hpage by (simpl; left; reflexivity).
  assert (In left_chars [right_chars; left_chars]) as Ho
    by (simpl; right; left; reflexivity).
  split; [exact Hrun|]. split; [exact Hpage|]. split; [exact Ho|].
  exact (proj2 (find_text_sorts_characters two_pdf "hi" None true false)
           _ _ _ _ Hrun Hpage Ho).
Defined.

(** C3 (counterexample): the hit for [ab] takes its [a] from span [a] and
    its [b] from span [b]; with [take_span=true] the result holds the
    characters of span [a], not the hit. *)
Lemma split_occurrence_promoted :
  (hits <- memory_map_find_text split_page "ab" ;; filter_adjacent_coords hits)
  = Ok [[ch "a" 1 0 "a"; ch "b" 10 0 "b"]]
  /\ span_ids_of [ch "a" 1 0 "a"; ch "b" 10 0 "b"] = [Some "a"; Some "b"]
  /\ HotPdf.find_text split_pdf "ab" None true true false
     = Ok [(0, [head_chars])]
  /\ head_chars <> [ch "a" 1 0 "a"; ch "b" 10 0 "b"].
Proof.
  split; [vm_compute; reflexivity|]. split; [reflexivity|].
  split; [vm_compute; reflexivity|]. discriminate.
Qed.

Lemma span_promotion_by_first_character_witness :
  get_element_dimension [ch "a" 1 0 "a"; ch "b" 10 0 "b"]
  = Ok (ElementDimension.mk 1 0 10 0 EmptyString)
  /\ HotPdf.extract_text split_pdf 1 0 10 0 0 = Ok "aby"
  /\ str_in "ab" "aby" || negb true = true
  /\ list_get (HotPdf.pages split_pdf) 0 = Ok split_page
  /\ HotPdf.occurrence_body split_pdf "ab" true true false 0 []
       [ch "a" 1 0 "a"; ch "b" 10 0 "b"]
     = Ok [head_chars].
Proof.
  assert (get_element_dimension [ch "a" 1 0 "a"; ch "b" 10 0 "b"]
          = Ok (ElementDimension.mk 1 0 10 0 EmptyString)) as Hd
    by reflexivity.
  assert (HotPdf.extract_text split_pdf 1 0 10 0 0 = Ok "aby") as Ht
    by reflexivity.
  assert (str_in "ab" "aby" || negb true = true) as Hv by reflexivity.
  assert (list_get (HotPdf.pages split_pdf) 0 = Ok split_page) as Hm
    by reflexivity.
  split; [exact Hd|]. split; [exact Ht|]. split; [exact Hv|].
  split; [exact Hm|].
  refine (proj1 (span_promotion_by_first_character split_pdf "ab" true false
                   0 [] (ch "a" 1 0 "a") [ch "b" 10 0 "b"] _ _ split_page
                   Hd Ht Hv Hm)
            "a" (Span.mk "a" head_chars) _ _ _ _).
  - reflexivity.
  - discriminate.
  - reflexivity.
  - discriminate.
Defined.

(** C4 (counterexample): first page 1 with last page 0 does not pass the
    range check; [load] raises the invalid-range error. *)
Lemma open_end_rejected :
  HotPdf.check_page_range 1 0 = Raise invalid_page_range
  /\ HotPdf.load (HotPdf.mk [] 4) (PurePathObj "doc.pdf") EmptyString true 1 0
     = Raise invalid_page_range.
Proof. split; reflexivity. Qed.

Lemma load_page_range_check_witness :
  file_found (PurePathObj "doc.pdf")
  /\ (3 > 0 \/ 3 < 0 \/ 0 < 0)
  /\ HotPdf.load (HotPdf.mk [] 4) (PurePathObj "doc.pdf") EmptyString true 3 0
     = Raise invalid_page_range.
Proof.
  assert (file_found (PurePathObj "doc.pdf")) as Hfile by exact I.
  assert (3 > 0 \/ 3 < 0 \/ 0 < 0) as Hbad by (left; reflexivity).
  split; [exact Hfile|]. split; [exact Hbad|].
  exact (proj1 (proj2 (proj2
           (load_page_range_check (HotPdf.mk [] 4) (PurePathObj "doc.pdf")
              EmptyString true 3 0))) Hfile Hbad).
Defined.

(** C5 (counterexample): on a page 10 wide with a glyph at [x = 12],
    [extract_page_text] stops at the page edge and [extract_text] over the
    page extents, padded by the tolerance 4, does not. *)
Lemma page_text_differs :
  HotPdf.extract_page_text narrow_pdf 0 = Ok "a"
  /\ HotPdf.extract_text narrow_pdf 0 0 (width narrow_page)
       (height narrow_page) 0 = Ok "ab"
  /\ HotPdf.extract_page_text narrow_pdf 0
     <> HotPdf.extract_text narrow_pdf 0 0 (width narrow_page)
          (height narrow_page) 0.
Proof.
  split; [vm_compute; reflexivity|]. split; [vm_compute; reflexivity|].
  vm_compute. discriminate.
Qed.

Lemma extract_page_text_box_witness :
  nth_error (HotPdf.pages exact_pdf) 0 = Some narrow_page
  /\ 0 <= width narrow_page /\ 0 <= height narrow_page
  /\ HotPdf.extraction_tolerance exact_pdf = 0
  /\ HotPdf.extract_page_text exact_pdf 0
     = HotPdf.extract_text exact_pdf 0 0 (width narrow_page)
         (height narrow_page) 0.
Proof.
  assert (nth_error (HotPdf.pages exact_pdf) 0 = Some narrow_page) as Hn
    by reflexivity.
  assert (0 <= width narrow_page) as Hw by (simpl; lia).
  assert (0 <= height narrow_page) as Hh by (simpl; lia).
  assert (HotPdf.extraction_tolerance exact_pdf = 0) as Htol by reflexivity.
  split; [exact Hn|]. split; [exact Hw|]. split; [exact Hh|].
  split; [exact Htol|].
  exact (proj2 (proj2 (extract_page_text_box exact_pdf 0%nat narrow_page
                         Hn Hw Hh)) Htol).
Defined.

(** C6 (counterexample): with [validate=true] and [take_span=true] the
    hit for [ab] passes the validation and is returned as span [a]; over
    the bounding box of what is returned, [extract_text] reads [xa], which
    does not contain the query. *)
Lemma promoted_span_not_validated :
  HotPdf.find_text split_pdf "ab" None true true false
  = Ok [(0, [head_chars])]
  /\ get_element_dimension head_chars
     = Ok (ElementDimension.mk 0 0 1 0 EmptyString)
  /\ HotPdf.extract_text split_pdf 0 0 1 0 0 = Ok "xa"
  /\ str_in "ab" "xa" = false.
Proof.
  split; [vm_compute; reflexivity|]. split; [reflexivity|].
  split; reflexivity.
Qed.

Lemma find_text_validated_witness :
  (true = true ->
   forall l d,
     get_element_dimension l = Ok d ->
     exists d', get_element_dimension (sorted_by key_le l) = Ok d'
                /\ same_coordinates d' d)
  /\ HotPdf.find_text line_pdf "hi" None true false true
     = Ok [(0, [[ch "h" 0 0 "s1"; ch "i" 10 0 "s1"];
                [ch "h" 30 0 "s1"; ch "i" 40 0 "s1"]])]
  /\ exists d text,
       get_element_dimension [ch "h" 30 0 "s1"; ch "i" 40 0 "s1"] = Ok d
       /\ HotPdf.extract_text line_pdf
            (ElementDimension.x0 d) (ElementDimension.y0 d)
            (ElementDimension.x1 d) (ElementDimension.y1 d) 0 = Ok text
       /\ str_in "hi" text = true.
Proof.
  assert (true = true ->
          forall l d,
            get_element_dimension l = Ok d ->
            exists d', get_element_dimension (sorted_by key_le l) = Ok d'
                       /\ same_coordinates d' d) as Hbox.
  { intros _ l d Hd. exists d. split.
    - simpl. rewrite bounding_box_sorted. exact Hd.
    - unfold same_coordinates. auto. }
  assert (HotPdf.find_text line_pdf "hi" None true false true
          = Ok [(0, [[ch "h" 0 0 "s1"; ch "i" 10 0 "s1"];
                     [ch "h" 30 0 "s1"; ch "i" 40 0 "s1"]])]) as Hrun
    by (vm_compute; reflexivity).
  split; [exact Hbox|]. split; [exact Hrun|].
  refine (find_text_validated line_pdf "hi" None true _ 0 _
            [ch "h" 30 0 "s1"; ch "i" 40 0 "s1"] Hbox Hrun _ _).
  - left. reflexivity.
  - right. left. reflexivity.
Defined.

Lemma negative_coordinate_rejected_witness :
  (-1 < 0 \/ 0 < 0 \/ 10 < 0 \/ 10 < 0)
  /\ HotPdf.extract_text line_pdf (-1) 0 10 10 0 = Raise invalid_coordinates.
Proof.
  assert (-1 < 0 \/ 0 < 0 \/ 10 < 0 \/ 10 < 0) as Hneg by (left; reflexivity).
  split; [exact Hneg|].
  exact (proj1 (negative_coordinate_rejected line_pdf (-1) 0 10 10 0 Hneg)).
Defined.

(** C10 (counterexample): on [HotPdf()], [extract_text(-1, 0, 10, 10, 0)]
    raises the invalid-coordinates error, not the invalid-page-number
    error. *)
Lemma empty_document_negative_coordinate :
  empty_pdf = Ok (HotPdf.mk [] 4)
  /\ HotPdf.extract_text (HotPdf.mk [] 4) (-1) 0 10 10 0
     = Raise invalid_coordinates
  /\ HotPdf.extract_text (HotPdf.mk [] 4) (-1) 0 10 10 0
     <> Raise invalid_page_number.
Proof.
  split; [reflexivity|]. split; [reflexivity|]. discriminate.
Qed.

Lemma empty_document_rejects_pages_witness :
  (0 <= 0 /\ 0 <= 0 /\ 0 <= 10 /\ 0 <= 10)
  /\ HotPdf.extract_text (HotPdf.mk [] 4) 0 0 10 10 0
     = Raise invalid_page_number.
Proof.
  assert (0 <= 0) as H0 by lia. assert (0 <= 10) as H10 by lia.
  split; [exact (conj H0 (conj H0 (conj H10 H10)))|].
  exact (proj1 (proj2 (proj2 (proj2
           (empty_document_rejects_pages EmptyString true 0 0 4) 0))
           0 0 10 10 H0 H0 H10 H10)).
Defined.

(** * Further properties of the class *)

(** ** Loading *)

Section Loading.
Context `{Collaborators}.

(** X1: a [str] path that does not exist makes [load] raise the
    file-not-found error naming the path, whatever the page range is -- the
    file is looked up before the range is checked. *)
Theorem load_missing_file_first (self : HotPdf.t) (path password : string)
  (drop_duplicate_spans : bool) (first_page last_page : Z) :
  path_exists path = false ->
  HotPdf.load self (PathStr path) password drop_duplicate_spans
    first_page last_page
  = Raise (FileNotFoundError ("File " ++ path ++ " not found")%string).
Proof.
  intros Hmissing. unfold HotPdf.load, HotPdf.prechecks,
    HotPdf.check_file_exists.
  rewrite Hmissing. reflexivity.
Qed.

(** X2: once the file check and the range check have passed, [load]
    is the loader: its pages replace the document's pages, the extraction
    tolerance stays, and an error of the loader comes out unchanged. *)
Theorem load_is_process (self : HotPdf.t) (pdf_file : PdfFile)
  (password : string) (drop_duplicate_spans : bool)
  (first_page last_page : Z) :
  file_found pdf_file ->
  0 <= first_page <= last_page ->
  HotPdf.load self pdf_file password drop_duplicate_spans first_page last_page
  = fmap (fun new_pages =>
            HotPdf.mk new_pages (HotPdf.extraction_tolerance self))
      (process pdf_file password drop_duplicate_spans first_page last_page).
Proof.
  intros Hfile Hrange. apply check_page_range_passes in Hrange.
  unfold HotPdf.load, HotPdf.prechecks, fmap.
  destruct pdf_file as [path|path|handle]; simpl in *.
  - unfold HotPdf.check_file_exists. rewrite Hfile. simpl.
    now rewrite Hrange.
  - now rewrite Hrange.
  - now rewrite Hrange.
Qed.

(** X3: the constructor loads only when [pdf_file] is true.  With [None]
    or the empty path it returns the empty document without looking at
    the file system or at the page range; with anything else it is [load]
    on the empty document. *)
Theorem init_loads_truthy_file (pdf_file : option PdfFile)
  (password : string) (drop_duplicate_spans : bool)
  (first_page last_page tolerance : Z) :
  (truthy_file pdf_file = false ->
   HotPdf.init pdf_file password drop_duplicate_spans first_page last_page
     tolerance = Ok (HotPdf.mk [] tolerance))
  /\ (forall f, pdf_file = Some f -> truthy_file pdf_file = true ->
      HotPdf.init pdf_file password drop_duplicate_spans first_page last_page
        tolerance
      = HotPdf.load (HotPdf.mk [] tolerance) f password drop_duplicate_spans
          first_page last_page).
Proof.
  split.
  - intros Hfalse. unfold HotPdf.init.
    destruct pdf_file as [f|]; [|reflexivity]. now rewrite Hfalse.
  - intros f -> Htrue. unfold HotPdf.init. now rewrite Htrue.
Qed.

End Loading.

(** ** Page and coordinate checks on any document *)

Section PageChecks.
Context `{Collaborators}.

(** X4: on any document, a page number that is negative or not below the
    number of loaded pages makes [extract_page_text] raise the
    invalid-page-number error, and [extract_text], [extract_spans] and
    [extract_spans_text] too when no coordinate is negative. *)
Theorem invalid_page_rejected (self : HotPdf.t) (x0 y0 x1 y1 page : Z) :
  ~ valid_page self page ->
  HotPdf.extract_page_text self page = Raise invalid_page_number
  /\ (0 <= x0 -> 0 <= y0 -> 0 <= x1 -> 0 <= y1 ->
      HotPdf.extract_text self x0 y0 x1 y1 page = Raise invalid_page_number
      /\ HotPdf.extract_spans self x0 y0 x1 y1 page
         = Raise invalid_page_number
      /\ HotPdf.extract_spans_text self x0 y0 x1 y1 page
         = Raise invalid_page_number).
Proof.
  intros Hbad. apply check_page_number_invalid in Hbad.
  split.
  - unfold HotPdf.extract_page_text. now rewrite Hbad.
  - intros Hx0 Hy0 Hx1 Hy1.
    unfold HotPdf.extract_text, HotPdf.extract_spans,
      HotPdf.extract_spans_text.
    rewrite check_coordinates_nonneg by assumption. simpl.
    rewrite Hbad. simpl. auto.
Qed.

(** X5: on a loaded page, [extract_text] accepts every box with
    non-negative coordinates -- it does not ask that [x0 <= x1] or
    [y0 <= y1], nor that the box lie inside the page -- and hands the page
    index that box with only [x1] moved, by the extraction tolerance. *)
Theorem extract_text_pads_x1 (self : HotPdf.t) (n : nat) (m : MemoryMap)
  (x0 y0 x1 y1 : Z) :
  nth_error (HotPdf.pages self) n = Some m ->
  0 <= x0 -> 0 <= y0 -> 0 <= x1 -> 0 <= y1 ->
  HotPdf.extract_text self x0 y0 x1 y1 (Z.of_nat n)
  = extract_text_from_bbox m x0 (x1 + HotPdf.extraction_tolerance self) y0 y1.
Proof.
  intros Hn Hx0 Hy0 Hx1 Hy1. unfold HotPdf.extract_text.
  rewrite check_coordinates_nonneg by assumption. simpl.
  rewrite (check_page_number_valid self) by (eapply valid_page_nth; eauto).
  simpl. now rewrite (list_get_nth _ _ _ Hn).
Qed.

Lemma spans_loop_filter (box : ElementDimension.t)
  (dim_of : Span.t -> ElementDimension.t) (items : list (string * Span.t)) :
  (forall item, In item items ->
     span_get_element_dimension (snd item) = Ok (dim_of (snd item))) ->
  forall acc,
    foldM (fun spans (item : string * Span.t) =>
             dim <- span_get_element_dimension (snd item) ;;
             if intersect box dim then Ok (spans ++ [snd item]) else Ok spans)
          items acc
    = Ok (acc ++ filter (fun s => intersect box (dim_of s)) (map snd items)).
Proof.
  induction items as [|item items IH]; intros Hdims acc; simpl.
  - now rewrite app_nil_r.
  - rewrite (Hdims item) by now left. simpl.
    destruct (intersect box (dim_of (snd item))).
    + etransitivity; [apply IH; intros; apply Hdims; now right|].
      now rewrite <- app_assoc.
    + apply IH. intros; apply Hdims; now right.
Qed.

Lemma spans_loop_failure (box : ElementDimension.t)
  (dim_of : Span.t -> ElementDimension.t)
  (before after : list (string * Span.t)) (bad : string * Span.t) (e : exn) :
  (forall item, In item before ->
     span_get_element_dimension (snd item) = Ok (dim_of (snd item))) ->
  span_get_element_dimension (snd bad) = Raise e ->
  forall acc,
    foldM (fun spans (item : string * Span.t) =>
             dim <- span_get_element_dimension (snd item) ;;
             if intersect box dim then Ok (spans ++ [snd item]) else Ok spans)
          (before ++ bad :: after) acc
    = Raise e.
Proof.
  intros Hbefore Hbad.
  induction before as [|item before IH]; intros acc; simpl.
  - now rewrite Hbad.
  - rewrite (Hbefore item) by now left. simpl.
    destruct (intersect box (dim_of (snd item)));
      apply IH; intros; apply Hbefore; now right.
Qed.

(** X6: on a loaded page whose spans all have a bounding box,
    [extract_spans] returns exactly the spans of [span_map] whose box
    intersects the query box, each once, in the order of the map, and
    [extract_spans_text] their texts joined. *)
Theorem extract_spans_selects (self : HotPdf.t) (n : nat) (m : MemoryMap)
  (dim_of : Span.t -> ElementDimension.t) (x0 y0 x1 y1 : Z) :
  nth_error (HotPdf.pages self) n = Some m ->
  0 <= x0 -> 0 <= y0 -> 0 <= x1 -> 0 <= y1 ->
  (forall item, In item (span_map m) ->
     span_get_element_dimension (snd item) = Ok (dim_of (snd item))) ->
  let hit := fun s =>
    intersect (ElementDimension.mk x0 y0 x1 y1 EmptyString) (dim_of s) in
  HotPdf.extract_spans self x0 y0 x1 y1 (Z.of_nat n)
  = Ok (filter hit (map snd (span_map m)))
  /\ HotPdf.extract_spans_text self x0 y0 x1 y1 (Z.of_nat n)
     = Ok (String.concat EmptyString
             (map to_text (filter hit (map snd (span_map m))))).
Proof.
  intros Hn Hx0 Hy0 Hx1 Hy1 Hdims hit.
  assert (HotPdf.extract_spans self x0 y0 x1 y1 (Z.of_nat n)
          = Ok (filter hit (map snd (span_map m)))) as Hspans.
  { unfold HotPdf.extract_spans.
    rewrite check_coordinates_nonneg by assumption. simpl.
    rewrite (check_page_number_valid self) by (eapply valid_page_nth; eauto).
    simpl. rewrite (list_get_nth _ _ _ Hn). simpl.
    apply (spans_loop_filter _ dim_of _ Hdims []). }
  split; [exact Hspans|].
  unfold HotPdf.extract_spans_text.
  rewrite check_coordinates_nonneg by assumption. simpl.
  rewrite (check_page_number_valid self) by (eapply valid_page_nth; eauto).
  simpl. rewrite Hspans. simpl. now rewrite fold_left_snoc.
Qed.

(** X7: [extract_spans] stops at the first span of the map whose bounding
    box cannot be computed and raises that error, whether or not the spans
    before it were selected. *)
Theorem extract_spans_first_failure (self : HotPdf.t) (n : nat)
  (m : MemoryMap) (dim_of : Span.t -> ElementDimension.t)
  (before after : list (string * Span.t)) (bad : string * Span.t) (e : exn)
  (x0 y0 x1 y1 : Z) :
  nth_error (HotPdf.pages self) n = Some m ->
  0 <= x0 -> 0 <= y0 -> 0 <= x1 -> 0 <= y1 ->
  span_map m = before ++ bad :: after ->
  (forall item, In item before ->
     span_get_element_dimension (snd item) = Ok (dim_of (snd item))) ->
  span_get_element_dimension (snd bad) = Raise e ->
  HotPdf.extract_spans self x0 y0 x1 y1 (Z.of_nat n) = Raise e
  /\ HotPdf.extract_spans_text self x0 y0 x1 y1 (Z.of_nat n) = Raise e.
Proof.
  intros Hn Hx0 Hy0 Hx1 Hy1 Hmap Hbefore Hbad.
  assert (HotPdf.extract_spans self x0 y0 x1 y1 (Z.of_nat n) = Raise e)
    as Hspans.
  { unfold HotPdf.extract_spans.
    rewrite check_coordinates_nonneg by assumption. simpl.
    rewrite (check_page_number_valid self) by (eapply valid_page_nth; eauto).
    simpl. rewrite (list_get_nth _ _ _ Hn). simpl. rewrite Hmap.
    apply (spans_loop_failure _ dim_of _ _ _ _ Hbefore Hbad []). }
  split; [exact Hspans|].
  unfold HotPdf.extract_spans_text.
  rewrite check_coordinates_nonneg by assumption. simpl.
  rewrite (check_page_number_valid self) by (eapply valid_page_nth; eauto).
  simpl. now rewrite Hspans.
Qed.

End PageChecks.

(** ** The result of [find_text], page by page *)

Section PageResults.
Context `{Collaborators}.

Lemma extract_text_ok (self : HotPdf.t) x0 y0 x1 y1 page text :
  HotPdf.extract_text self x0 y0 x1 y1 page = Ok text ->
  (0 <= x0 /\ 0 <= y0 /\ 0 <= x1 /\ 0 <= y1) /\ valid_page self page.
Proof.
  intros Hrun. split.
  - destruct (Z_lt_le_dec x0 0) as [Hx0|Hx0],
             (Z_lt_le_dec y0 0) as [Hy0|Hy0],
             (Z_lt_le_dec x1 0) as [Hx1|Hx1],
             (Z_lt_le_dec y1 0) as [Hy1|Hy1];
      try (repeat split; assumption);
      unfold HotPdf.extract_text in Hrun;
      rewrite check_coordinates_neg in Hrun by lia; discriminate.
  - unfold HotPdf.extract_text in Hrun.
    destruct (HotPdf.check_coordinates x0 y0 x1 y1) as [[]|e];
      simpl in Hrun; [|discriminate].
    unfold HotPdf.check_page_number, valid_page in *.
    destruct (page <? 0) eqn:E0; simpl in Hrun; [discriminate|].
    destruct (page >=? len (HotPdf.pages self)) eqn:E1; simpl in Hrun;
      [discriminate|].
    apply Z.ltb_ge in E0. rewrite Z.geb_leb in E1. apply Z.leb_gt in E1. lia.
Qed.

Lemma page_loop_result (self : HotPdf.t) query validate take_span sort
  page_num (raw : PageResult) :
  forall acc occs,
    foldM (HotPdf.occurrence_body self query validate take_span sort page_num)
      raw acc = Ok occs ->
    occs = acc ++ map (returned_for self take_span sort page_num)
                    (filter (passes self query validate page_num) raw)
    /\ forall h, In h raw ->
         exists d,
           get_element_dimension h = Ok d
           /\ 0 <= ElementDimension.x0 d /\ 0 <= ElementDimension.y0 d
           /\ 0 <= ElementDimension.x1 d /\ 0 <= ElementDimension.y1 d.
Proof.
  induction raw as [|h raw IH]; simpl; intros acc occs Hrun.
  - inversion Hrun; subst. split; [now rewrite app_nil_r|intros h []].
  - rewrite occurrence_body_eq in Hrun.
    destruct (get_element_dimension h) as [d|e] eqn:Ed; simpl in Hrun;
      [|discriminate].
    destruct (HotPdf.extract_text _ _ _ _ _ _) as [text|e] eqn:Et;
      simpl in Hrun; [|discriminate].
    assert (passes self query validate page_num h
            = str_in query text || negb validate) as Hpass.
    { unfold passes, validation_text. rewrite Ed. simpl. now rewrite Et. }
    rewrite Hpass.
    assert (forall h', In h' (h :: raw) -> In h' raw \/ h' = h) as Hcase
      by (intros h' [<-|Hin]; auto).
    destruct (str_in query text || negb validate).
    + destruct (if take_span then _ else _) as [full|e] eqn:Ef;
        simpl in Hrun; [|discriminate].
      apply IH in Hrun as (-> & Hboxes). split.
      * rewrite <- app_assoc. simpl. do 2 f_equal.
        unfold returned_for. destruct take_span.
        -- now rewrite Ef.
        -- now inversion Ef.
      * intros h' [<-|Hin]; [|now apply Hboxes].
        exists d. split; [exact Ed|]. now apply extract_text_ok in Et.
    + apply IH in Hrun as (-> & Hboxes). split; [reflexivity|].
      intros h' [<-|Hin]; [|now apply Hboxes].
      exists d. split; [exact Ed|]. now apply extract_text_ok in Et.
Qed.

(** X8: for every page of a result, the occurrences are the filtered hits
    of that page that pass the test [(query in text) or not validate],
    each exactly once and in the order of the hits, each replaced by what
    is returned for it (the hit itself, or the span looked up for it with
    [take_span], sorted on demand).  No hit is dropped for any other
    reason; in particular none for sharing a span with an earlier one. *)
Theorem find_text_page_result (self : HotPdf.t) query pages_arg validate
  take_span sort res page_num occs :
  HotPdf.find_text self query pages_arg validate take_span sort = Ok res ->
  In (page_num, occs) res ->
  exists m raw,
    list_get (HotPdf.pages self) page_num = Ok m
    /\ (hits <- memory_map_find_text m query ;; filter_adjacent_coords hits)
       = Ok raw
    /\ occs = map (returned_for self take_span sort page_num)
                (filter (passes self query validate page_num) raw)
    /\ (validate = false -> List.length occs = List.length raw).
Proof.
  intros Hrun Hpage.
  destruct (find_text_page _ _ _ _ _ _ _ _ _ Hrun Hpage)
    as (m & raw & Hm & Hraw & Hloop).
  apply page_loop_result in Hloop as (-> & _).
  exists m, raw. repeat split; auto.
  intros ->. simpl. rewrite length_map. f_equal.
  clear. induction raw as [|h raw IH]; simpl; [reflexivity|].
  unfold passes at 1. rewrite orb_true_r. simpl. now f_equal.
Qed.

(** X9: the bounding box of a hit is read back through [extract_text]
    whether or not [validate] is set, so a hit whose box has a negative
    coordinate makes the loop body raise the invalid-coordinates error
    under every setting of the flags; a search that returns has found
    only hits with non-negative boxes on the pages it reports. *)
Theorem negative_hit_box_raises (self : HotPdf.t) query pages_arg validate
  take_span sort :
  (forall page_num acc h d,
      get_element_dimension h = Ok d ->
      ElementDimension.x0 d < 0 \/ ElementDimension.y0 d < 0
      \/ ElementDimension.x1 d < 0 \/ ElementDimension.y1 d < 0 ->
      HotPdf.occurrence_body self query validate take_span sort page_num
        acc h = Raise invalid_coordinates)
  /\ (forall res page_num occs,
         HotPdf.find_text self query pages_arg validate take_span sort
         = Ok res ->
         In (page_num, occs) res ->
         exists m raw,
           list_get (HotPdf.pages self) page_num = Ok m
           /\ (hits <- memory_map_find_text m query ;;
               filter_adjacent_coords hits) = Ok raw
           /\ forall h, In h raw ->
                exists d,
                  get_element_dimension h = Ok d
                  /\ 0 <= ElementDimension.x0 d
                  /\ 0 <= ElementDimension.y0 d
                  /\ 0 <= ElementDimension.x1 d
                  /\ 0 <= ElementDimension.y1 d).
Proof.
  split.
  - intros page_num acc h d Hd Hneg.
    unfold HotPdf.occurrence_body. rewrite Hd. simpl.
    unfold HotPdf.extract_text. now rewrite check_coordinates_neg.
  - intros res page_num occs Hrun Hpage.
    destruct (find_text_page _ _ _ _ _ _ _ _ _ Hrun Hpage)
      as (m & raw & Hm & Hraw & Hloop).
    apply page_loop_result in Hloop as (_ & Hboxes).
    exists m, raw. auto.
Qed.

End PageResults.

(** ** Span lookup *)

Section SpanLookup.
Context `{Collaborators}.

Lemma extract_full_text_span_some (self : HotPdf.t) h page_num chars :
  HotPdf.extract_full_text_span self h page_num = Ok (Some chars) ->
  exists first rest id sp m,
    h = first :: rest
    /\ HotCharacter.span_id first = Some id
    /\ list_get (HotPdf.pages self) page_num = Ok m
    /\ dict_find String.eqb (span_map m) id = Some sp
    /\ chars = Span.characters sp.
Proof.
  unfold HotPdf.extract_full_text_span. intros Hrun.
  destruct h as [|first rest]; [discriminate|]. simpl in Hrun.
  destruct (truthy_id (HotCharacter.span_id first)); simpl in Hrun;
    [|discriminate].
  destruct (list_get (HotPdf.pages self) page_num) as [m|e] eqn:Em;
    simpl in Hrun; [|discriminate].
  destruct (HotCharacter.span_id first) as [id|] eqn:Eid; simpl in Hrun;
    [|discriminate].
  destruct (dict_find String.eqb (span_map m) id) as [sp|] eqn:Esp;
    simpl in Hrun; [|discriminate].
  inversion Hrun; subst.
  exists first, rest, id, sp, m. auto.
Qed.

(** X10: a hit that fails the test [(query in text) or not validate] is
    dropped before any span is looked up, whatever [take_span] is, so no
    lookup can raise for it; and with [take_span=true], a hit that passes
    and whose span is registered but holds no character is appended as it
    was found. *)
Theorem span_lookup_edges (self : HotPdf.t) query validate sort page_num acc
  (first : HotCharacter.t) (rest : Occurrence) d text :
  get_element_dimension (first :: rest) = Ok d ->
  HotPdf.extract_text self
    (ElementDimension.x0 d) (ElementDimension.y0 d)
    (ElementDimension.x1 d) (ElementDimension.y1 d) page_num = Ok text ->
  (str_in query text || negb validate = false ->
   forall take_span,
     HotPdf.occurrence_body self query validate take_span sort page_num
       acc (first :: rest) = Ok acc)
  /\ (str_in query text || negb validate = true ->
      forall m id sp,
        list_get (HotPdf.pages self) page_num = Ok m ->
        HotCharacter.span_id first = Some id -> id <> EmptyString ->
        dict_find String.eqb (span_map m) id = Some sp ->
        Span.characters sp = [] ->
        HotPdf.occurrence_body self query validate true sort page_num acc
          (first :: rest) = Ok (acc ++ [with_sort sort (first :: rest)])).
Proof.
  intros Hd Ht. split.
  - intros Hv take_span.
    rewrite occurrence_body_eq, Hd. simpl. rewrite Ht. simpl.
    now rewrite Hv.
  - intros Hv m id sp Hm Hid Hne Hsp Hempty.
    assert (truthy_id (Some id) = true) as Htruthy
      by (destruct id; [congruence|reflexivity]).
    rewrite occurrence_body_eq, Hd. simpl. rewrite Ht. simpl. rewrite Hv.
    unfold HotPdf.extract_full_text_span. simpl.
    rewrite Hid, Htruthy, Hm. simpl. rewrite Hsp. simpl.
    now rewrite Hempty.
Qed.

(** X11: with [take_span=true], every occurrence of a result is, up to
    the sort, either a filtered hit of its page or the character list of
    a span registered in that page's [span_map] under the identifier of
    the hit's first character. *)
Theorem promoted_occurrence_origin (self : HotPdf.t) query pages_arg
  validate sort res page_num occs o :
  HotPdf.find_text self query pages_arg validate true sort = Ok res ->
  In (page_num, occs) res -> In o occs ->
  exists m raw h,
    list_get (HotPdf.pages self) page_num = Ok m
    /\ (hits <- memory_map_find_text m query ;; filter_adjacent_coords hits)
       = Ok raw
    /\ In h raw
    /\ (o = with_sort sort h
        \/ exists first rest id sp,
             h = first :: rest
             /\ HotCharacter.span_id first = Some id
             /\ dict_find String.eqb (span_map m) id = Some sp
             /\ o = with_sort sort (Span.characters sp)).
Proof.
  intros Hrun Hpage Ho.
  destruct (find_text_page _ _ _ _ _ _ _ _ _ Hrun Hpage)
    as (m & raw & Hm & Hraw & Hloop).
  apply page_loop_origin in Hloop as (fresh & -> & Hfresh). simpl in Ho.
  destruct (Hfresh o Ho) as (h & d & text & full & Hh & _ & _ & _ & Hf & ->).
  exists m, raw, h. repeat split; auto.
  destruct full as [[|c cs]|]; simpl; [now left| |now left].
  right. apply extract_full_text_span_some in Hf
    as (first & rest & id & sp & m' & -> & Hid & Hm' & Hsp & Hchars).
  rewrite Hm in Hm'. inversion Hm'; subst m'.
  exists first, rest, id, sp. rewrite Hchars. auto.
Qed.

End SpanLookup.

(** ** The [sort] flag *)

Section SortResult.
Context `{Collaborators}.

Lemma insert_by_head c l :
  Forall (fun d => key_le c d = true) l -> insert_by key_le c l = c :: l.
Proof.
  intros Hall. destruct l as [|d l]; [reflexivity|]. simpl.
  inversion Hall as [|? ? Hd _]; subst. now rewrite Hd.
Qed.

Lemma sorted_by_fixed l : ascending_xy l -> sorted_by key_le l = l.
Proof.
  unfold ascending_xy. induction 1 as [|c l Hl IH Hc]; simpl;
    [reflexivity|].
  rewrite IH. now apply insert_by_head.
Qed.

Lemma sort_result_fixed (res : SearchResult) :
  sort_result (sort_result res) = sort_result res.
Proof.
  unfold sort_result. rewrite map_map. apply map_ext. intros [k occs]. simpl.
  f_equal. rewrite map_map. apply map_ext. intros o.
  apply sorted_by_fixed, sorted_by_ascending.
Qed.

(** X12: the [sort] flag loses and invents nothing.  When the call with
    [sort=true] returns, the call with [sort=false] returns too, with the
    same pages in the same order and as many occurrences on each, and
    every occurrence of the sorted result is a permutation of the
    occurrence at its place in the unsorted one; sorting the sorted result
    again changes nothing. *)
Theorem sort_permutes_occurrences (self : HotPdf.t) query pages_arg validate
  take_span res :
  HotPdf.find_text self query pages_arg validate take_span true = Ok res ->
  sort_result res = res
  /\ exists res0,
       HotPdf.find_text self query pages_arg validate take_span false
       = Ok res0
       /\ keys res = keys res0
       /\ Forall2 (fun sorted found =>
                     fst sorted = fst found
                     /\ Forall2 (@Permutation HotCharacter.t)
                          (snd sorted) (snd found))
            res res0.
Proof.
  intros Hrun. rewrite find_text_sort in Hrun. unfold fmap in Hrun.
  destruct (HotPdf.find_text _ _ _ _ _ false) as [res0|e]; simpl in Hrun;
    [|discriminate].
  inversion Hrun; subst res. split; [apply sort_result_fixed|].
  exists res0. split; [reflexivity|]. split.
  - unfold keys, sort_result. rewrite map_map. reflexivity.
  - unfold sort_result. clear.
    induction res0 as [|[k occs] res0 IH]; simpl; constructor; [|exact IH].
    simpl. split; [reflexivity|].
    induction occs as [|o occs IHo]; simpl; constructor; [|exact IHo].
    apply sorted_by_perm.
Qed.

End SortResult.

(** ** A page named more than once *)

Section RepeatedPages.
Context `{Collaborators}.

Lemma dict_find_set_same {V} (d : list (Z * V)) k v :
  dict_find Z.eqb (dict_set Z.eqb d k v) k = Some v.
Proof.
  induction d as [|[k0 v0] d IH]; simpl.
  - now rewrite Z.eqb_refl.
  - destruct (k =? k0) eqn:E; simpl; [now rewrite Z.eqb_refl|].
    now rewrite E.
Qed.

Lemma dict_find_set_other {V} (d : list (Z * V)) k v k' :
  k' <> k -> dict_find Z.eqb (dict_set Z.eqb d k v) k' = dict_find Z.eqb d k'.
Proof.
  intros Hne. induction d as [|[k0 v0] d IH]; simpl.
  - apply Z.eqb_neq in Hne. now rewrite Hne.
  - destruct (Z.eqb_spec k k0) as [->|Hk]; simpl.
    + apply Z.eqb_neq in Hne. now rewrite Hne.
    + destruct (k' =? k0); [reflexivity|exact IH].
Qed.

Lemma dict_set_known {V} (d : list (Z * V)) k v :
  dict_find Z.eqb d k = Some v -> dict_set Z.eqb d k v = d.
Proof.
  induction d as [|[k0 v0] d IH]; simpl; [discriminate|].
  destruct (Z.eqb_spec k k0) as [->|Hk].
  - intros E. now inversion E.
  - intros E. now rewrite IH.
Qed.

Lemma first_occurrences_in (l : list Z) :
  forall seen a,
    In a (first_occurrences seen l) <-> In a l /\ ~ In a seen.
Proof.
  induction l as [|b l IH]; intros seen a; simpl; [tauto|].
  destruct (existsb (Z.eqb b) seen) eqn:E.
  - apply existsb_exists in E as (c & Hc & Ebc). apply Z.eqb_eq in Ebc.
    subst c. rewrite IH. split; [tauto|].
    intros [[<-|Hin] Hout]; [contradiction|tauto].
  - assert (~ In b seen) as Hb.
    { intros Hin. apply Bool.not_true_iff_false in E. apply E.
      apply existsb_exists. exists b. split; [exact Hin|apply Z.eqb_refl]. }
    simpl. rewrite IH. simpl. split.
    + intros [<-|[Hin Hout]]; [tauto|tauto].
    + intros [[<-|Hin] Hout]; [now left|].
      destruct (Z.eq_dec b a) as [<-|Hne]; [now left|right; tauto].
Qed.

Lemma first_occurrences_nodup (l : list Z) :
  forall seen, NoDup (first_occurrences seen l).
Proof.
  induction l as [|b l IH]; intros seen; simpl; [constructor|].
  destruct (existsb (Z.eqb b) seen); [apply IH|].
  constructor; [|apply IH].
  rewrite first_occurrences_in. simpl. tauto.
Qed.

Lemma for_each_pages_first (self : HotPdf.t) (l : list Z) :
  for_each (HotPdf.check_page_number self) (first_occurrences [] l)
  = for_each (HotPdf.check_page_number self) l.
Proof.
  assert (forall p, {valid_page self p} + {~ valid_page self p}) as Hdec.
  { intros p. unfold valid_page.
    destruct (Z_le_dec 0 p), (Z_lt_dec p (len (HotPdf.pages self)));
      (left; lia) || (right; lia). }
  destruct (Forall_Exists_dec _ Hdec l) as [Hall|Hbad].
  - rewrite !for_each_pages_valid; auto.
    apply Forall_forall. intros p Hp. apply first_occurrences_in in Hp.
    rewrite Forall_forall in Hall. now apply Hall.
  - rewrite !for_each_pages_invalid; auto.
    apply Exists_exists in Hbad as (p & Hp & Hinv).
    apply Exists_exists. exists p. split; [|exact Hinv].
    apply first_occurrences_in. simpl. tauto.
Qed.

Lemma query_pages_first (self : HotPdf.t) (l : list Z) :
  forall seen d,
    (forall s, In s seen ->
       exists m, list_get (HotPdf.pages self) s = Ok m
                 /\ dict_find Z.eqb d s = Some m) ->
    foldM (fun d i => m <- list_get (HotPdf.pages self) i ;;
                      Ok (dict_set Z.eqb d i m)) l d
    = foldM (fun d i => m <- list_get (HotPdf.pages self) i ;;
                        Ok (dict_set Z.eqb d i m))
        (first_occurrences seen l) d.
Proof.
  induction l as [|a l IH]; intros seen d Hseen; simpl; [reflexivity|].
  destruct (existsb (Z.eqb a) seen) eqn:E.
  - apply existsb_exists in E as (c & Hc & Eac). apply Z.eqb_eq in Eac.
    subst c. destruct (Hseen a Hc) as (m & Hget & Hfind).
    rewrite Hget. simpl. rewrite (dict_set_known _ _ _ Hfind).
    now apply IH.
  - simpl.
    destruct (list_get (HotPdf.pages self) a) as [m|e] eqn:Hget; simpl;
      [|reflexivity].
    apply IH. intros s [<-|Hs].
    + exists m. split; [exact Hget|apply dict_find_set_same].
    + destruct (Hseen s Hs) as (ms & Hgs & Hfs). exists ms.
      split; [exact Hgs|]. rewrite dict_find_set_other; [exact Hfs|].
      intros ->. apply Bool.not_true_iff_false in E. apply E.
      apply existsb_exists. exists a. split; [exact Hs|apply Z.eqb_refl].
Qed.

Lemma first_occurrences_len (l : list Z) :
  (len (first_occurrences [] l) =? 0) = (len l =? 0).
Proof. destruct l; reflexivity. Qed.

(** X13: naming a page more than once in [pages] changes nothing: the
    call is the call with every page number kept at its first mention
    only, and a result has one entry per distinct requested page, in the
    order of first mention -- also for the pages on which nothing was
    found. *)
Theorem repeated_pages_ignored (self : HotPdf.t) query (pages_arg : list Z)
  validate take_span sort :
  HotPdf.find_text self query (Some pages_arg) validate take_span sort
  = HotPdf.find_text self query (Some (first_occurrences [] pages_arg))
      validate take_span sort
  /\ forall res,
       HotPdf.find_text self query (Some pages_arg) validate take_span sort
       = Ok res ->
       pages_arg <> [] ->
       keys res = first_occurrences [] pages_arg /\ NoDup (keys res).
Proof.
  assert (HotPdf.find_text self query (Some pages_arg) validate take_span sort
          = HotPdf.find_text self query
              (Some (first_occurrences [] pages_arg))
              validate take_span sort) as Hsame.
  { unfold HotPdf.find_text.
    rewrite for_each_pages_first, first_occurrences_len.
    destruct (len pages_arg =? 0); [reflexivity|].
    rewrite (query_pages_first self pages_arg [] []); [reflexivity|].
    intros s []. }
  split; [exact Hsame|].
  intros res Hrun Hne. rewrite Hsame in Hrun.
  assert (keys res = first_occurrences [] pages_arg) as Hkeys.
  { unfold HotPdf.find_text in Hrun.
    destruct (for_each _ _) as [[]|e]; simpl in Hrun; [|discriminate].
    rewrite first_occurrences_len in Hrun.
    destruct pages_arg as [|p ps]; [congruence|].
    change (len (p :: ps) =? 0) with false in Hrun. cbv iota in Hrun.
    match type of Hrun with
    | bind (foldM ?f ?l []) _ = _ =>
        destruct (foldM f l []) as [query_pages|e] eqn:E2;
        simpl in Hrun; [|discriminate]
    end.
    match type of Hrun with
    | bind (foldM ?f ?l []) _ = _ =>
        destruct (foldM f l []) as [found|e] eqn:E3;
        simpl in Hrun; [|discriminate]
    end.
    apply (foldM_set_keys (fun i => i)) in E2;
      [|rewrite map_id; apply first_occurrences_nodup].
    rewrite map_id in E2.
    apply (foldM_set_keys fst) in E3;
      [|fold (keys query_pages); rewrite E2; apply first_occurrences_nodup].
    fold (keys query_pages) in E3.
    apply (foldM_set_keys fst) in Hrun;
      [|fold (keys found); rewrite E3, E2; apply first_occurrences_nodup].
    fold (keys found) in Hrun. congruence. }
  split; [exact Hkeys|]. rewrite Hkeys. apply first_occurrences_nodup.
Qed.

End RepeatedPages.

(** ** When [find_text] returns *)

Section Returns.

Lemma foldM_set_total {A V : Type} (kf : A -> Z) (g : A -> result V)
  (val : A -> V) (l : list A) :
  forall d0,
    NoDup (map kf l) ->
    (forall a, In a l -> ~ In (kf a) (keys d0)) ->
    (forall a, In a l -> g a = Ok (val a)) ->
    foldM (fun d a => v <- g a ;; Ok (dict_set Z.eqb d (kf a) v)) l d0
    = Ok (d0 ++ map (fun a => (kf a, val a)) l).
Proof.
  induction l as [|a l IH]; simpl; intros d0 Hnd Hfresh Hg.
  - now rewrite app_nil_r.
  - rewrite (Hg a) by now left. simpl.
    inversion Hnd as [|? ? Hna Hnd']; subst.
    rewrite dict_set_fresh by (apply Hfresh; now left).
    rewrite IH; auto.
    + now rewrite <- app_assoc.
    + intros b Hb Hin. unfold keys in Hin. rewrite map_app in Hin.
      apply in_app_or in Hin as [Hin|[Hin|[]]].
      * apply (Hfresh b); [now right|exact Hin].
      * simpl in Hin. apply Hna. rewrite Hin. now apply in_map.
Qed.

Context `{Collaborators}.

Lemma page_loop_total (self : HotPdf.t) query validate take_span sort
  page_num (raw : PageResult) :
  (forall h, In h raw ->
     exists d text,
       get_element_dimension h = Ok d
       /\ HotPdf.extract_text self
            (ElementDimension.x0 d) (ElementDimension.y0 d)
            (ElementDimension.x1 d) (ElementDimension.y1 d) page_num
          = Ok text) ->
  (take_span = true ->
   forall h, In h raw -> passes self query validate page_num h = true ->
     exists full,
       HotPdf.extract_full_text_span self h page_num = Ok full) ->
  forall acc,
    foldM (HotPdf.occurrence_body self query validate take_span sort page_num)
      raw acc
    = Ok (acc ++ map (returned_for self take_span sort page_num)
                   (filter (passes self query validate page_num) raw)).
Proof.
  induction raw as [|h raw IH]; intros Hbox Hspan acc; simpl.
  - now rewrite app_nil_r.
  - rewrite occurrence_body_eq.
    destruct (Hbox h) as (d & text & Hd & Ht); [now left|].
    rewrite Hd. simpl. rewrite Ht. simpl.
    assert (passes self query validate page_num h
            = str_in query text || negb validate) as Hpass.
    { unfold passes, validation_text. rewrite Hd. simpl. now rewrite Ht. }
    rewrite Hpass.
    assert (forall acc',
              foldM (HotPdf.occurrence_body self query validate take_span
                       sort page_num) raw acc'
              = Ok (acc' ++ map (returned_for self take_span sort page_num)
                              (filter (passes self query validate page_num)
                                 raw))) as IH'.
    { apply IH.
      - intros h' Hh'. apply Hbox. now right.
      - intros Ht' h' Hh'. apply Hspan; [exact Ht'|now right]. }
    destruct (str_in query text || negb validate) eqn:Ev; [|apply IH'].
    cbn [filter map]. destruct take_span.
    + destruct (Hspan eq_refl h) as (full & Hf); [now left|congruence|].
      rewrite Hf. cbn [bind]. rewrite IH', <- app_assoc.
      unfold returned_for at 2. now rewrite Hf.
    + cbn [bind]. rewrite IH', <- app_assoc. reflexivity.
Qed.

(** X14: [find_text] returns whenever every page it is asked for is
    loaded, the raw search and the adjacency filter return on each, every
    filtered hit has a bounding box that [extract_text] can read back,
    and, with [take_span], the span lookup of every passing hit returns.
    The result then lists the pages asked for, in order, each with its
    passing hits in the order the search found them.  The pages asked
    for are all loaded pages when [pages] is empty, and are taken here
    without repetition. *)
Theorem find_text_returns (self : HotPdf.t) query (pages_arg : list Z)
  validate take_span sort
  (page_of : Z -> MemoryMap) (raw_of : Z -> PageResult) :
  let asked := if len pages_arg =? 0 then range (len (HotPdf.pages self))
               else pages_arg in
  NoDup asked ->
  (forall p, In p asked ->
     valid_page self p
     /\ list_get (HotPdf.pages self) p = Ok (page_of p)
     /\ (hits <- memory_map_find_text (page_of p) query ;;
         filter_adjacent_coords hits) = Ok (raw_of p)) ->
  (forall p h, In p asked -> In h (raw_of p) ->
     exists d text,
       get_element_dimension h = Ok d
       /\ HotPdf.extract_text self
            (ElementDimension.x0 d) (ElementDimension.y0 d)
            (ElementDimension.x1 d) (ElementDimension.y1 d) p = Ok text) ->
  (take_span = true ->
   forall p h, In p asked -> In h (raw_of p) ->
     passes self query validate p h = true ->
     exists full, HotPdf.extract_full_text_span self h p = Ok full) ->
  HotPdf.find_text self query (Some pages_arg) validate take_span sort
  = Ok (map (fun p =>
               (p, map (returned_for self take_span sort p)
                     (filter (passes self query validate p) (raw_of p))))
          asked).
Proof.
  intros asked Hnd Hpages Hbox Hspan.
  unfold HotPdf.find_text.
  rewrite for_each_pages_valid.
  2:{ destruct pages_arg as [|p ps]; [constructor|].
      apply Forall_forall. intros q Hq. now apply (Hpages q). }
  simpl bind at 1. fold asked.
  match goal with
  | |- bind (foldM ?f ?l []) _ = _ =>
      assert (foldM f l [] = Ok (map (fun p => (p, page_of p)) asked)) as E2
  end.
  { apply (foldM_set_total (fun i => i) _ page_of asked []).
    - now rewrite map_id.
    - intros a _ [].
    - intros a Ha. now apply (Hpages a). }
  rewrite E2. simpl bind at 1.
  match goal with
  | |- bind (foldM ?f ?l []) _ = _ =>
      assert (foldM f l [] = Ok (map (fun p => (p, raw_of p)) asked)) as E3
  end.
  { etransitivity.
    - apply (foldM_set_total fst _ (fun item => raw_of (fst item)) _ []).
      + now rewrite map_map, map_id.
      + intros a _ [].
      + intros item Hitem. apply in_map_iff in Hitem as (p & <- & Hp).
        simpl. now apply (Hpages p).
    - simpl. now rewrite map_map. }
  rewrite E3. simpl bind at 1.
  etransitivity.
  - apply (foldM_set_total fst _
             (fun item =>
                map (returned_for self take_span sort (fst item))
                  (filter (passes self query validate (fst item))
                     (snd item))) _ []).
    + now rewrite map_map, map_id.
    + intros a _ [].
    + intros item Hitem. apply in_map_iff in Hitem as (p & <- & Hp).
      simpl.
      apply (page_loop_total self query validate take_span sort p
               (raw_of p)).
      * intros h Hh. now apply (Hbox p).
      * intros Ht h Hh. now apply (Hspan Ht p).
  - simpl. now rewrite map_map.
Qed.

End Returns.

(** ** The further properties on the concrete documents *)

Lemma load_missing_file_first_witness :
  @path_exists disk "none.pdf" = false
  /\ @HotPdf.load disk (@HotPdf.mk disk [] 4) (PathStr "none.pdf")
       EmptyString true 3 0
     = Raise (FileNotFoundError "File none.pdf not found").
Proof.
  assert (@path_exists disk "none.pdf" = false) as Hmissing by reflexivity.
  split; [exact Hmissing|].
  exact (@load_missing_file_first disk (@HotPdf.mk disk [] 4) "none.pdf"
           EmptyString true 3 0 Hmissing).
Defined.

Lemma load_is_process_witness :
  @file_found disk (PathStr "doc.pdf")
  /\ 0 <= 1 <= 2
  /\ @HotPdf.load disk (@HotPdf.mk disk [] 7) (PathStr "doc.pdf")
       EmptyString true 1 2
     = Ok (@HotPdf.mk disk [line_page] 7).
Proof.
  assert (@file_found disk (PathStr "doc.pdf")) as Hfile by reflexivity.
  assert (0 <= 1 <= 2) as Hrange by lia.
  split; [exact Hfile|]. split; [exact Hrange|].
  exact (@load_is_process disk (@HotPdf.mk disk [] 7) (PathStr "doc.pdf")
           EmptyString true 1 2 Hfile Hrange).
Defined.

Lemma init_loads_truthy_file_witness :
  truthy_file (Some (PathStr EmptyString)) = false
  /\ @path_exists disk EmptyString = false
  /\ @HotPdf.init disk (Some (PathStr EmptyString)) EmptyString true 5 1 4
     = Ok (@HotPdf.mk disk [] 4)
  /\ @HotPdf.init disk (Some (PathStr "doc.pdf")) EmptyString true 0 0 4
     = @HotPdf.load disk (@HotPdf.mk disk [] 4) (PathStr "doc.pdf")
         EmptyString true 0 0.
Proof.
  assert (truthy_file (Some (PathStr EmptyString)) = false) as Hfalse
    by reflexivity.
  assert (truthy_file (Some (PathStr "doc.pdf")) = true) as Htrue
    by reflexivity.
  split; [exact Hfalse|]. split; [reflexivity|]. split.
  - exact (proj1 (@init_loads_truthy_file disk (Some (PathStr EmptyString))
                    EmptyString true 5 1 4) Hfalse).
  - exact (proj2 (@init_loads_truthy_file disk (Some (PathStr "doc.pdf"))
                    EmptyString true 0 0 4) (PathStr "doc.pdf") eq_refl Htrue).
Defined.

Lemma invalid_page_rejected_witness :
  ~ valid_page line_pdf 7
  /\ HotPdf.extract_page_text line_pdf 7 = Raise invalid_page_number
  /\ HotPdf.extract_spans line_pdf 0 0 10 10 7 = Raise invalid_page_number.
Proof.
  assert (~ valid_page line_pdf 7) as Hbad
    by (unfold valid_page, len; simpl; lia).
  assert (0 <= 0) as H0 by lia. assert (0 <= 10) as H10 by lia.
  split; [exact Hbad|]. split.
  - exact (proj1 (invalid_page_rejected line_pdf 0 0 10 10 7 Hbad)).
  - exact (proj1 (proj2 (proj2 (invalid_page_rejected line_pdf 0 0 10 10 7
                                  Hbad) H0 H0 H10 H10))).
Defined.

Lemma extract_text_pads_x1_witness :
  nth_error (HotPdf.pages line_pdf) 0 = Some line_page
  /\ (0 <= 30 /\ 0 <= 0 /\ 0 <= 6 /\ 0 <= 0)
  /\ HotPdf.extract_text line_pdf 30 0 6 0 0
     = extract_text_from_bbox line_page 30 (6 + 4) 0 0.
Proof.
  assert (nth_error (HotPdf.pages line_pdf) 0 = Some line_page) as Hn
    by reflexivity.
  assert (0 <= 30) as H30 by lia. assert (0 <= 0) as H0 by lia.
  assert (0 <= 6) as H6 by lia.
  split; [exact Hn|]. split; [exact (conj H30 (conj H0 (conj H6 H0)))|].
  exact (extract_text_pads_x1 line_pdf 0%nat line_page 30 0 6 0
           Hn H30 H0 H6 H0).
Defined.

Lemma extract_spans_selects_witness :
  (forall item, In item (span_map two_page) ->
     span_get_element_dimension (snd item)
     = Ok (PageIndex.box_of (Span.characters (snd item))))
  /\ HotPdf.extract_spans two_pdf 0 0 100 100 0 = Ok [Span.mk "l" left_chars]
  /\ HotPdf.extract_spans_text two_pdf 0 0 100 100 0 = Ok "hi".
Proof.
  assert (forall item, In item (span_map two_page) ->
            span_get_element_dimension (snd item)
            = Ok (PageIndex.box_of (Span.characters (snd item)))) as Hdims.
  { intros item [<-|[<-|[]]]; reflexivity. }
  assert (nth_error (HotPdf.pages two_pdf) 0 = Some two_page) as Hn
    by reflexivity.
  assert (0 <= 0) as H0 by lia. assert (0 <= 100) as H100 by lia.
  split; [exact Hdims|].
  exact (extract_spans_selects two_pdf 0%nat two_page
           (fun s => PageIndex.box_of (Span.characters s)) 0 0 100 100
           Hn H0 H0 H100 H100 Hdims).
Defined.

Lemma extract_spans_first_failure_witness :
  span_map (PageIndex.mkPage 100 100 head_chars hollow_spans)
  = [("a", Span.mk "a" head_chars)] ++ ("e", Span.mk "e" []) :: []
  /\ span_get_element_dimension (Span.mk "e" []) = Raise EmptyInputError
  /\ HotPdf.extract_spans hollow_pdf 0 0 100 100 0 = Raise EmptyInputError
  /\ HotPdf.extract_spans_text hollow_pdf 0 0 100 100 0
     = Raise EmptyInputError.
Proof.
  assert (nth_error (HotPdf.pages hollow_pdf) 0
          = Some (PageIndex.mkPage 100 100 head_chars hollow_spans)) as Hn
    by reflexivity.
  assert (span_map (PageIndex.mkPage 100 100 head_chars hollow_spans)
          = [("a", Span.mk "a" head_chars)] ++ ("e", Span.mk "e" []) :: [])
    as Hmap by reflexivity.
  assert (forall item, In item [("a", Span.mk "a" head_chars)] ->
            span_get_element_dimension (snd item)
            = Ok (PageIndex.box_of (Span.characters (snd item)))) as Hbefore.
  { intros item [<-|[]]. reflexivity. }
  assert (span_get_element_dimension (snd ("e", Span.mk "e" []))
          = Raise EmptyInputError) as Hbad by reflexivity.
  assert (0 <= 0) as H0 by lia. assert (0 <= 100) as H100 by lia.
  split; [exact Hmap|]. split; [exact Hbad|].
  exact (extract_spans_first_failure hollow_pdf 0%nat _
           (fun s => PageIndex.box_of (Span.characters s))
           [("a", Span.mk "a" head_chars)] [] ("e", Span.mk "e" [])
           EmptyInputError 0 0 100 100 Hn H0 H0 H100 H100 Hmap Hbefore Hbad).
Defined.

Lemma find_text_page_result_witness :
  HotPdf.find_text line_pdf "hi" None false false false
  = Ok [(0, [[ch "h" 0 0 "s1"; ch "i" 10 0 "s1"];
             [ch "h" 30 0 "s1"; ch "i" 40 0 "s1"]])]
  /\ exists m raw,
       list_get (HotPdf.pages line_pdf) 0 = Ok m
       /\ (hits <- memory_map_find_text m "hi" ;; filter_adjacent_coords hits)
          = Ok raw
       /\ [[ch "h" 0 0 "s1"; ch "i" 10 0 "s1"];
           [ch "h" 30 0 "s1"; ch "i" 40 0 "s1"]]
          = map (returned_for line_pdf false false 0)
              (filter (passes line_pdf "hi" false 0) raw)
       /\ (false = false ->
           List.length [[ch "h" 0 0 "s1"; ch "i" 10 0 "s1"];
                        [ch "h" 30 0 "s1"; ch "i" 40 0 "s1"]]
           = List.length raw).
Proof.
  assert (HotPdf.find_text line_pdf "hi" None false false false
          = Ok [(0, [[ch "h" 0 0 "s1"; ch "i" 10 0 "s1"];
                     [ch "h" 30 0 "s1"; ch "i" 40 0 "s1"]])]) as Hrun
    by (vm_compute; reflexivity).
  split; [exact Hrun|].
  refine (find_text_page_result line_pdf "hi" None false false false _ 0 _
            Hrun _).
  left. reflexivity.
Defined.

Lemma negative_hit_box_raises_witness :
  get_element_dimension [ch "a" (-1) 0 "s1"]
  = Ok (ElementDimension.mk (-1) 0 (-1) 0 EmptyString)
  /\ HotPdf.occurrence_body line_pdf "a" false false false 0 []
       [ch "a" (-1) 0 "s1"]
     = Raise invalid_coordinates.
Proof.
  assert (get_element_dimension [ch "a" (-1) 0 "s1"]
          = Ok (ElementDimension.mk (-1) 0 (-1) 0 EmptyString)) as Hd
    by reflexivity.
  split; [exact Hd|].
  refine (proj1 (negative_hit_box_raises line_pdf "a" None false false false)
            0 [] [ch "a" (-1) 0 "s1"] _ Hd _).
  left. simpl. lia.
Defined.

Lemma span_lookup_edges_witness :
  get_element_dimension [ch "a" 1 0 "e"]
  = Ok (ElementDimension.mk 1 0 1 0 EmptyString)
  /\ HotPdf.extract_text vacant_pdf 1 0 1 0 0 = Ok "a"
  /\ str_in "b" "a" || negb true = false
  /\ HotPdf.occurrence_body vacant_pdf "b" true true true 0 []
       [ch "a" 1 0 "e"] = Ok []
  /\ HotPdf.occurrence_body vacant_pdf "a" true true true 0 []
       [ch "a" 1 0 "e"] = Ok [[ch "a" 1 0 "e"]].
Proof.
  assert (get_element_dimension [ch "a" 1 0 "e"]
          = Ok (ElementDimension.mk 1 0 1 0 EmptyString)) as Hd
    by reflexivity.
  assert (HotPdf.extract_text vacant_pdf 1 0 1 0 0 = Ok "a") as Ht
    by reflexivity.
  assert (str_in "b" "a" || negb true = false) as Hfail by reflexivity.
  assert (str_in "a" "a" || negb true = true) as Hpass by reflexivity.
  assert ("e" <> EmptyString) as Hne by discriminate.
  split; [exact Hd|]. split; [exact Ht|]. split; [exact Hfail|]. split.
  - exact (proj1 (span_lookup_edges vacant_pdf "b" true true 0 []
                    (ch "a" 1 0 "e") [] _ _ Hd Ht) Hfail true).
  - exact (proj2 (span_lookup_edges vacant_pdf "a" true true 0 []
                    (ch "a" 1 0 "e") [] _ _ Hd Ht) Hpass
             _ "e" (Span.mk "e" []) eq_refl eq_refl Hne eq_refl eq_refl).
Defined.

Lemma promoted_occurrence_origin_witness :
  HotPdf.find_text split_pdf "ab" None true true false
  = Ok [(0, [head_chars])]
  /\ exists m raw h,
       list_get (HotPdf.pages split_pdf) 0 = Ok m
       /\ (hits <- memory_map_find_text m "ab" ;; filter_adjacent_coords hits)
          = Ok raw
       /\ In h raw
       /\ (head_chars = with_sort false h
           \/ exists first rest id sp,
                h = first :: rest
                /\ HotCharacter.span_id first = Some id
                /\ dict_find String.eqb (span_map m) id = Some sp
                /\ head_chars = with_sort false (Span.characters sp)).
Proof.
  assert (HotPdf.find_text split_pdf "ab" None true true false
          = Ok [(0, [head_chars])]) as Hrun by (vm_compute; reflexivity).
  split; [exact Hrun|].
  refine (promoted_occurrence_origin split_pdf "ab" None true false _ 0 _
            head_chars Hrun _ _).
  - left. reflexivity.
  - left. reflexivity.
Defined.

Lemma sort_permutes_occurrences_witness :
  HotPdf.find_text two_pdf "hi" None true false true
  = Ok [(0, [right_chars; left_chars])]
  /\ sort_result [(0, [right_chars; left_chars])]
     = [(0, [right_chars; left_chars])].
Proof.
  assert (HotPdf.find_text two_pdf "hi" None true false true
          = Ok [(0, [right_chars; left_chars])]) as Hrun
    by (vm_compute; reflexivity).
  split; [exact Hrun|].
  exact (proj1 (sort_permutes_occurrences two_pdf "hi" None true false _
                  Hrun)).
Defined.

Lemma repeated_pages_ignored_witness :
  HotPdf.find_text line_pdf "hi" (Some [0; 0]) true true true
  = Ok [(0, [line_chars; line_chars])]
  /\ [0; 0] <> []
  /\ keys [(0, [line_chars; line_chars])] = first_occurrences [] [0; 0]
  /\ NoDup (keys [(0, [line_chars; line_chars])]).
Proof.
  assert (HotPdf.find_text line_pdf "hi" (Some [0; 0]) true true true
          = Ok [(0, [line_chars; line_chars])]) as Hrun
    by (vm_compute; reflexivity).
  assert ([0; 0] <> @nil Z) as Hne by discriminate.
  split; [exact Hrun|]. split; [exact Hne|].
  exact (proj2 (repeated_pages_ignored line_pdf "hi" [0; 0] true true true)
           _ Hrun Hne).
Defined.

Lemma find_text_returns_witness :
  NoDup (range (len (HotPdf.pages two_pdf)))
  /\ HotPdf.find_text two_pdf "hi" (Some []) true false false
     = Ok (map (fun p =>
                  (p, map (returned_for two_pdf false false p)
                        (filter (passes two_pdf "hi" true p)
                           [right_chars; left_chars])))
             (range (len (HotPdf.pages two_pdf)))).
Proof.
  assert (NoDup (range (len (HotPdf.pages two_pdf)))) as Hnd
    by apply range_nodup.
  split; [exact Hnd|].
  refine (find_text_returns two_pdf "hi" [] true false false
            (fun _ => two_page) (fun _ => [right_chars; left_chars])
            Hnd _ _ _).
  - intros p [<-|[]]. split; [unfold valid_page, len; simpl; lia|].
    split; reflexivity.
  - intros p h [<-|[]] [<-|[<-|[]]].
    + exists (ElementDimension.mk 50 0 51 0 EmptyString), "hi".
      split; reflexivity.
    + exists (ElementDimension.mk 0 10 1 10 EmptyString), "hi".
      split; reflexivity.
  - discriminate.
Defined.

(** ** Which pages [find_text] searches *)

Section AllPages.
Context `{Collaborators}.

(** C7: leaving [pages] out is passing the empty list, and the empty list
    searches every loaded page.  The call is the one that names each page
    number [0 .. len(pages)-1]; a result has exactly these keys, and under
    each key the hits that the page index finds and filters on that very
    page, passed through the test and the span lookup; and the call
    returns that result whenever the page index answers on every loaded
    page.  When some requested page number is negative or not below the
    number of loaded pages, the call raises the invalid-page-number
    error, whatever the page index of any page would answer or raise: the
    checks come before the first use of a page. *)
Theorem find_text_page_selection (self : HotPdf.t) query validate
  take_span sort :
  HotPdf.find_text self query None validate take_span sort
  = HotPdf.find_text self query (Some []) validate take_span sort
  /\ HotPdf.find_text self query (Some []) validate take_span sort
     = HotPdf.find_text self query
         (Some (range (len (HotPdf.pages self)))) validate take_span sort
  /\ (forall res,
         HotPdf.find_text self query (Some []) validate take_span sort
         = Ok res ->
         keys res = range (len (HotPdf.pages self))
         /\ forall page_num occs,
              In (page_num, occs) res ->
              exists m raw,
                list_get (HotPdf.pages self) page_num = Ok m
                /\ (hits <- memory_map_find_text m query ;;
                    filter_adjacent_coords hits) = Ok raw
                /\ occs = map (returned_for self take_span sort page_num)
                            (filter (passes self query validate page_num)
                               raw))
  /\ (forall (page_of : Z -> MemoryMap) (raw_of : Z -> PageResult),
         (forall p, In p (range (len (HotPdf.pages self))) ->
            list_get (HotPdf.pages self) p = Ok (page_of p)
            /\ (hits <- memory_map_find_text (page_of p) query ;;
                filter_adjacent_coords hits) = Ok (raw_of p)) ->
         (forall p h,
            In p (range (len (HotPdf.pages self))) -> In h (raw_of p) ->
            exists d text,
              get_element_dimension h = Ok d
              /\ HotPdf.extract_text self
                   (ElementDimension.x0 d) (ElementDimension.y0 d)
                   (ElementDimension.x1 d) (ElementDimension.y1 d) p
                 = Ok text) ->
         (take_span = true ->
          forall p h,
            In p (range (len (HotPdf.pages self))) -> In h (raw_of p) ->
            passes self query validate p h = true ->
            exists full, HotPdf.extract_full_text_span self h p = Ok full) ->
         HotPdf.find_text self query (Some []) validate take_span sort
         = Ok (map (fun p =>
                      (p, map (returned_for self take_span sort p)
                            (filter (passes self query validate p)
                               (raw_of p))))
                 (range (len (HotPdf.pages self)))))
  /\ (forall pages_arg,
         Exists (fun p => ~ valid_page self p) pages_arg ->
         HotPdf.find_text self query (Some pages_arg) validate take_span sort
         = Raise invalid_page_number).
Proof.
  split; [reflexivity|]. split; [|split; [|split]].
  - unfold HotPdf.find_text.
    rewrite (for_each_pages_valid self (range _)) by apply range_valid.
    rewrite len_range by (unfold len; lia).
    simpl for_each. simpl bind at 1.
    destruct (len (HotPdf.pages self) =? 0) eqn:E; [|reflexivity].
    apply Z.eqb_eq in E. rewrite E. reflexivity.
  - intros res Hrun. split.
    + unfold HotPdf.find_text in Hrun. simpl in Hrun.
      match type of Hrun with
      | bind (foldM ?f ?l []) _ = _ =>
          destruct (foldM f l []) as [query_pages|e] eqn:E2;
          simpl in Hrun; [|discriminate]
      end.
      match type of Hrun with
      | bind (foldM ?f ?l []) _ = _ =>
          destruct (foldM f l []) as [found|e] eqn:E3;
          simpl in Hrun; [|discriminate]
      end.
      apply (foldM_set_keys (fun i => i)) in E2;
        [|rewrite map_id; apply range_nodup].
      rewrite map_id in E2.
      apply (foldM_set_keys fst) in E3;
        [|fold (keys query_pages); rewrite E2; apply range_nodup].
      fold (keys query_pages) in E3.
      apply (foldM_set_keys fst) in Hrun;
        [|fold (keys found); rewrite E3, E2; apply range_nodup].
      fold (keys found) in Hrun. congruence.
    + intros page_num occs Hpage.
      destruct (find_text_page _ _ _ _ _ _ _ _ _ Hrun Hpage)
        as (m & raw & Hm & Hraw & Hloop).
      apply page_loop_result in Hloop as (-> & _).
      exists m, raw. auto.
  - intros page_of raw_of Hpages Hbox Hspan.
    unfold HotPdf.find_text.
    change (for_each (HotPdf.check_page_number self) [])
      with (@Ok unit tt).
    cbn [bind]. change (len (@nil Z) =? 0) with true. cbv iota.
    match goal with
    | |- bind (foldM ?f ?l []) _ = _ =>
        assert (foldM f l []
                = Ok (map (fun p => (p, page_of p))
                        (range (len (HotPdf.pages self))))) as E2
    end.
    { apply (foldM_set_total (fun i => i) _ page_of _ []).
      - rewrite map_id. apply range_nodup.
      - intros a _ [].
      - intros a Ha. now apply (Hpages a). }
    rewrite E2. cbn [bind].
    match goal with
    | |- bind (foldM ?f ?l []) _ = _ =>
        assert (foldM f l []
                = Ok (map (fun p => (p, raw_of p))
                        (range (len (HotPdf.pages self))))) as E3
    end.
    { etransitivity.
      - apply (foldM_set_total fst _ (fun item => raw_of (fst item)) _ []).
        + rewrite map_map, map_id. apply range_nodup.
        + intros a _ [].
        + intros item Hitem. apply in_map_iff in Hitem as (p & <- & Hp).
          simpl. now apply (Hpages p).
      - simpl. now rewrite map_map. }
    rewrite E3. cbn [bind].
    etransitivity.
    + apply (foldM_set_total fst _
               (fun item =>
                  map (returned_for self take_span sort (fst item))
                    (filter (passes self query validate (fst item))
                       (snd item))) _ []).
      * rewrite map_map, map_id. apply range_nodup.
      * intros a _ [].
      * intros item Hitem. apply in_map_iff in Hitem as (p & <- & Hp).
        simpl.
        apply (page_loop_total self query validate take_span sort p
                 (raw_of p)).
        -- intros h Hh. now apply (Hbox p).
        -- intros Ht h Hh. now apply (Hspan Ht p).
    + simpl. now rewrite map_map.
  - intros pages_arg Hbad. unfold HotPdf.find_text.
    now rewrite for_each_pages_invalid.
Qed.

End AllPages.

Lemma find_text_page_selection_witness :
  Exists (fun p => ~ valid_page two_pdf p) [0; 99]
  /\ HotPdf.find_text two_pdf "hi" (Some [0; 99]) true false true
     = Raise invalid_page_number
  /\ HotPdf.find_text two_pdf "hi" (Some []) true false true
     = Ok (map (fun p =>
                  (p, map (returned_for two_pdf false true p)
                        (filter (passes two_pdf "hi" true p)
                           [right_chars; left_chars])))
             (range (len (HotPdf.pages two_pdf))))
  /\ keys [(0, [right_chars; left_chars])]
     = range (len (HotPdf.pages two_pdf)).
Proof.
  assert (Exists (fun p => ~ valid_page two_pdf p) [0; 99]) as Hbad.
  { apply Exists_cons_tl, Exists_cons_hd.
    unfold valid_page, len. simpl. lia. }
  assert (HotPdf.find_text two_pdf "hi" (Some []) true false true
          = Ok [(0, [right_chars; left_chars])]) as Hrun
    by (vm_compute; reflexivity).
  split; [exact Hbad|]. split; [|split].
  - exact (proj2 (proj2 (proj2 (proj2
             (find_text_page_selection two_pdf "hi" true false true))))
             [0; 99] Hbad).
  - refine (proj1 (proj2 (proj2 (proj2
              (find_text_page_selection two_pdf "hi" true false true))))
              (fun _ => two_page) (fun _ => [right_chars; left_chars])
              _ _ _).
    + intros p [<-|[]]. split; reflexivity.
    + intros p h [<-|[]] [<-|[<-|[]]].
      * exists (ElementDimension.mk 50 0 51 0 EmptyString), "hi".
        split; reflexivity.
      * exists (ElementDimension.mk 0 10 1 10 EmptyString), "hi".
        split; reflexivity.
    + discriminate.
  - exact (proj1 (proj1 (proj2 (proj2
             (find_text_page_selection two_pdf "hi" true false true)))
             _ Hrun)).
Defined.
